(** * Restbucks: the serializer layer of [core.api]

    A shallow embedding of [core/api/serializers.py] and of the cart
    uniqueness constraint of [core/carts/migrations/0002_auto_20180220_0800.py],
    together with the properties the specification states about them.

    Python values are embedded as follows: [str] as [string], [int] as [Z]
    or [nat], [dict] as [gmap string _] when it is looked up by key and as
    an association list when the order of the keys is observable (an
    [OrderedDict] produced by [to_representation]), [None] as [option].
    A call that can raise returns a [result]; a call that reads or writes
    the database runs in the monad [orm], which threads the tables. *)

From Stdlib Require Import ZArith List String Ascii Lia.
From stdpp Require Import base option list strings pretty gmap.

Set Warnings "-register-all".

Local Open Scope string_scope.
Local Open Scope Z_scope.

(** ** Python exceptions and results *)

Module Py.

(** The [detail] carried by a [rest_framework.serializers.ValidationError]:
    a single message, or a dictionary from field names to messages. *)
Inductive detail : Type :=
| Msg (m : string)
| MsgDict (d : list (string * list string)).

Inductive exn : Type :=
| ValidationError (d : detail)
| DjangoValidationError (message_dict : list (string * list string))
| KeyError (key : string)
| IntegrityError (constraint : string).

Inductive result (A : Type) : Type :=
| Return (a : A)
| Raise (e : exn).

Arguments Return {A} a.
Arguments Raise {A} e.

Definition bind {A B : Type} (r : result A) (k : A -> result B) : result B :=
  match r with
  | Return a => k a
  | Raise e => Raise e
  end.

(** [try: body except <handler>]: the handler returns [None] for the
    exceptions it does not catch, which then propagate. *)
Definition try_except {A : Type} (body : result A)
  (handler : exn -> option (result A)) : result A :=
  match body with
  | Return a => Return a
  | Raise e => match handler e with
               | Some r => r
               | None => Raise e
               end
  end.

Definition raises {A : Type} (r : result A) : bool :=
  match r with
  | Return _ => false
  | Raise _ => true
  end.

(** [d[k]] on a dictionary: [KeyError] when the key is absent. *)
Definition getitem {V : Type} (d : gmap string V) (k : string) : result V :=
  match d !! k with
  | Some v => Return v
  | None => Raise (KeyError k)
  end.

(** [d.get(k, default)]. *)
Definition dict_get {V : Type} (d : gmap string V) (k : string) (default : V) : V :=
  match d !! k with
  | Some v => v
  | None => default
  end.

End Py.

Export Py.


Notation "'let!' x ':=' r 'in' k" := (Py.bind r (fun x => k))
  (at level 10, x name, r at level 100, k at level 200).

(** ** The models

    [core.products.models], [core.orders.models] and the user model are
    not part of the sources at hand; the records below hold the columns
    the serializers name.  Amounts are exact integers (no floating point).
    The primary key [id] of a row is assigned when the row is saved. *)

Record datetime : Type := {
  year : nat;
  month : nat;
  day : nat;
  hour : nat;
  minute : nat
}.

Module User.
Record t : Type := {
  id : nat;
  email : string;
  password : string
}.
End User.

Module Product.
Record t : Type := {
  id : nat;
  title : string;
  price : Z;
  option : string;
  items : list string
}.
End Product.

Module Cart.
Record t : Type := {
  product : nat;
  user : nat;
  customization : string
}.
End Cart.

Module Order.
Record t : Type := {
  id : nat;
  status : string;
  date : datetime;
  location : string;
  user : nat;
  total_price : Z
}.
End Order.

(** ** The database and the [orm] monad *)

Record Db : Type := {
  users : list User.t;
  products : list Product.t;
  carts : list Cart.t;
  orders : list Order.t
}.

Definition set_users (f : list User.t -> list User.t) (db : Db) : Db :=
  {| users := f (users db); products := products db;
     carts := carts db; orders := orders db |}.

Definition set_products (f : list Product.t -> list Product.t) (db : Db) : Db :=
  {| users := users db; products := f (products db);
     carts := carts db; orders := orders db |}.

Definition set_carts (f : list Cart.t -> list Cart.t) (db : Db) : Db :=
  {| users := users db; products := products db;
     carts := f (carts db); orders := orders db |}.

Definition set_orders (f : list Order.t -> list Order.t) (db : Db) : Db :=
  {| users := users db; products := products db;
     carts := carts db; orders := f (orders db) |}.

Definition orm (A : Type) : Type := Db -> result A * Db.

Definition ret {A : Type} (a : A) : orm A := fun db => (Return a, db).

Definition raise {A : Type} (e : exn) : orm A := fun db => (Raise e, db).

Definition obind {A B : Type} (m : orm A) (k : A -> orm B) : orm B :=
  fun db =>
    match m db with
    | (Return a, db') => k a db'
    | (Raise e, db') => (Raise e, db')
    end.

(** A query reads the tables and leaves them as they are. *)
Definition query {A : Type} (q : Db -> A) : orm A :=
  fun db => (Return (q db), db).

Definition modify (f : Db -> Db) : orm unit :=
  fun db => (Return tt, f db).

(** A call that can raise but does not touch the database. *)
Definition lift {A : Type} (r : result A) : orm A :=
  fun db => (r, db).

Notation "'do!' x '<-' m ';' k" := (obind m (fun x => k))
  (at level 10, x name, m at level 100, k at level 200).

(** The next free primary key of a table. *)
Definition next_id (ids : list nat) : nat := S (foldr Nat.max 0%nat ids).

(** ** The serializer framework

    What the serializers rely on from [rest_framework.serializers]: the
    flags of a field, how a [ModelSerializer] derives its fields from
    [Meta], and which fields [to_representation] emits. *)

Module Drf.

(** A serialized value. *)
Inductive value : Type :=
| VNone
| VStr (s : string)
| VInt (z : Z)
| VList (l : list value)
| VDict (d : list (string * value)).

Record kwargs : Type := {
  read_only : bool;
  write_only : bool;
  required : bool
}.

Definition defaults : kwargs :=
  {| read_only := false; write_only := false; required := true |}.

Definition set_read_only (k : kwargs) : kwargs :=
  {| read_only := true; write_only := write_only k; required := false |}.

Definition set_write_only (k : kwargs) : kwargs :=
  {| read_only := read_only k; write_only := true; required := required k |}.

Definition set_required (b : bool) (k : kwargs) : kwargs :=
  {| read_only := read_only k; write_only := write_only k; required := b |}.

(** [serializers.CharField()] *)
Definition CharField : kwargs := defaults.

(** [serializers.DateTimeField(format=..., required=...)] *)
Definition DateTimeField (req : bool) : kwargs := set_required req defaults.

(** [serializers.HiddenField(default=...)]: its constructor forces
    [write_only=True]; the value comes from the default, never from the
    caller, and the field is not part of the output. *)
Definition HiddenField : kwargs := set_write_only defaults.

(** [serializers.SerializerMethodField(...)]: its constructor forces
    [read_only=True]. *)
Definition SerializerMethodField : kwargs := set_read_only defaults.

(** A nested serializer declared as a field, [S(many=True)]. *)
Definition NestedSerializer : kwargs := defaults.

Record Meta : Type := {
  fields : list string;
  read_only_fields : list string;
  extra_kwargs : list (string * (kwargs -> kwargs))
}.

Fixpoint assoc {V : Type} (k : string) (l : list (string * V)) : option V :=
  match l with
  | [] => None
  | (k', v) :: l' => if String.eqb k' k then Some v else assoc k l'
  end.

Definition mem (k : string) (l : list string) : bool :=
  existsb (String.eqb k) l.

(** The field a [ModelSerializer] builds for a model column:
    [Meta.extra_kwargs] is applied, and a name listed in
    [Meta.read_only_fields] gets [read_only=True]. *)
Definition build_field (m : Meta) (name : string) : kwargs :=
  let k := match assoc name (extra_kwargs m) with
           | Some f => f defaults
           | None => defaults
           end in
  if mem name (read_only_fields m) then set_read_only k else k.

(** [ModelSerializer.get_fields]: the names of [Meta.fields], in order; a
    field declared on the class is used as it is declared, and
    [Meta.read_only_fields] and [Meta.extra_kwargs] apply to the other
    fields only. *)
Definition get_fields (declared : list (string * kwargs)) (m : Meta)
  : list (string * kwargs) :=
  map (fun name =>
         match assoc name declared with
         | Some k => (name, k)
         | None => (name, build_field m name)
         end) (fields m).

(** The fields [to_representation] goes through: those not write-only. *)
Definition readable_fields (fs : list (string * kwargs)) : list string :=
  map fst (List.filter (fun f => negb (write_only (snd f))) fs).

(** The fields [to_internal_value] goes through: those not read-only. *)
Definition writable_fields (fs : list (string * kwargs)) : list string :=
  map fst (List.filter (fun f => negb (read_only (snd f))) fs).

(** [Serializer.to_representation]: an ordered dictionary with one entry per
    readable field, in field order; a field whose rendering raises makes
    the whole call raise. *)
Fixpoint render_fields {I : Type} (render : string -> I -> result value)
  (instance : I) (names : list string) : result (list (string * value)) :=
  match names with
  | [] => Return []
  | name :: rest =>
      let! v := render name instance in
      let! d := render_fields render instance rest in
      Return ((name, v) :: d)
  end.

Definition to_representation {I : Type} (fs : list (string * kwargs))
  (render : string -> I -> result value) (instance : I)
  : result (list (string * value)) :=
  render_fields render instance (readable_fields fs).

Definition keys (d : list (string * value)) : list string := map fst d.

(** [str(n)] for an integer, as [CharField.to_representation] applies it. *)
Definition str_int (z : Z) : string := pretty z.

Definition month_abbr : list string :=
  ["Jan"; "Feb"; "Mar"; "Apr"; "May"; "Jun";
   "Jul"; "Aug"; "Sep"; "Oct"; "Nov"; "Dec"].

(** A number on two digits, as [%d], [%H] and [%M] print it. *)
Definition pad2 (n : nat) : string :=
  if (n <? 10)%nat then "0" ++ pretty n else pretty n.

(** One [strftime] directive.  Of the directives only those of the format
    of [OrderListSerializer.date] are interpreted; another one is kept as
    it is written. *)
Definition directive (c : ascii) (dt : datetime) : string :=
  if Ascii.eqb c "d" then pad2 (day dt)
  else if Ascii.eqb c "b" then nth (pred (month dt)) month_abbr ""
  else if Ascii.eqb c "Y" then pretty (year dt)
  else if Ascii.eqb c "H" then pad2 (hour dt)
  else if Ascii.eqb c "M" then pad2 (minute dt)
  else String "%" (String c "").

(** [datetime.strftime(format)] *)
Fixpoint strftime (format : string) (dt : datetime) : string :=
  match format with
  | "" => ""
  | String c rest =>
      if Ascii.eqb c "%" then
        match rest with
        | "" => "%"
        | String c' rest' => directive c' dt ++ strftime rest' dt
        end
      else String c (strftime rest dt)
  end.

End Drf.

(** ** [BaseProductSerializer] and [ProductListSerializer] *)

Module BaseProductSerializer.

Definition Meta_fields : list string := ["title"; "price"; "option"].

End BaseProductSerializer.

Module ProductListSerializer.

Definition Meta_fields : list string :=
  (BaseProductSerializer.Meta_fields ++ ["items"; "id"])%list.

Definition Meta : Drf.Meta :=
  {| Drf.fields := Meta_fields;
     Drf.read_only_fields := [];
     Drf.extra_kwargs := [] |}.

Definition fields : list (string * Drf.kwargs) := Drf.get_fields [] Meta.

(** How each column of a product is rendered when its field is emitted. *)
Definition render (name : string) (p : Product.t) : result Drf.value :=
  if String.eqb name "title" then Return (Drf.VStr (Product.title p))
  else if String.eqb name "price" then Return (Drf.VInt (Product.price p))
  else if String.eqb name "option" then Return (Drf.VStr (Product.option p))
  else if String.eqb name "items" then
    Return (Drf.VList (map Drf.VStr (Product.items p)))
  else if String.eqb name "id" then Return (Drf.VInt (Z.of_nat (Product.id p)))
  else Return Drf.VNone.

(** [ProductListSerializer(instance=product).data] *)
Definition to_representation (p : Product.t) : result (list (string * Drf.value)) :=
  Drf.to_representation fields render p.

(** [ProductListSerializer(products, many=True).data] *)
Fixpoint many (l : list Product.t) : result (list Drf.value) :=
  match l with
  | [] => Return []
  | p :: rest =>
      let! d := to_representation p in
      let! ds := many rest in
      Return (Drf.VDict d :: ds)
  end.

End ProductListSerializer.

(** ** The password hasher

    What [user.set_password] relies on from [django.contrib.auth.hashers]:
    a salted hasher encodes a raw password as
    [algorithm$iterations$salt$hash], where the salt is drawn for the call
    and the hash is a digest of the salt and the raw password. *)

Module Hashers.

Section Hasher.

(** The name of the algorithm and its work factor, as the settings choose
    them, and the digest the algorithm computes. *)
Variable algorithm : string.
Variable iterations : string.
Variable digest : string -> string -> string.

(** [make_password(raw)] with the salt it has drawn. *)
Definition make_password (salt raw : string) : string :=
  algorithm +:+ "$" +:+ iterations +:+ "$" +:+ salt +:+ "$" +:+ digest salt raw.

End Hasher.

End Hashers.

(** ** [RegisterSerializer] *)

Module RegisterSerializer.

Definition Meta : Drf.Meta :=
  {| Drf.fields := ["email"; "password"];
     Drf.read_only_fields := [];
     Drf.extra_kwargs := [("password", Drf.set_write_only);
                          ("email", Drf.set_required true)] |}.

Definition fields : list (string * Drf.kwargs) := Drf.get_fields [] Meta.

(** How each column of a user is rendered when its field is emitted. *)
Definition render (name : string) (u : User.t) : result Drf.value :=
  if String.eqb name "email" then Return (Drf.VStr (User.email u))
  else if String.eqb name "password" then Return (Drf.VStr (User.password u))
  else Return Drf.VNone.

(** [RegisterSerializer(instance=user).data] *)
Definition data (u : User.t) : result (list (string * Drf.value)) :=
  Drf.to_representation fields render u.

(** [User.objects.filter(email=value).exists()] *)
Definition email_exists (value : string) (db : Db) : bool :=
  existsb (fun u => String.eqb (User.email u) value) (users db).

(** [User.objects.filter(email=value).count()] *)
Definition count_email (value : string) (db : Db) : nat :=
  length (List.filter (fun u => String.eqb (User.email u) value) (users db)).

Definition validate_email (value : string) : orm string :=
  do! taken <- query (email_exists value);
  if (taken : bool) then raise (ValidationError (Msg "The email is taken."))
  else ret value.

Definition validate_password (value : string) : result string :=
  if (Z.of_nat (String.length value) <? 8)
  then Raise (ValidationError (Msg "Password must be at least 8 letters."))
  else Return value.

Record validated_data : Type := {
  vd_email : string;
  vd_password : string
}.

Section Framework.

(** [django.contrib.auth.hashers.make_password], which
    [user.set_password] applies: the encoded password for a salt and a raw
    password. *)
Variable make_password : string -> string -> string.

(** The validators the framework derives from the columns of the user
    model (address syntax, maximal length): whether the value of the named
    field passes them. *)
Variable field_validators : string -> string -> bool.

Definition set_password (salt raw : string) (u : User.t) : User.t :=
  {| User.id := User.id u; User.email := User.email u;
     User.password := make_password salt raw |}.

(** [user.save()] of a new user: the row gets the next primary key. *)
Definition save_user (u : User.t) : orm User.t :=
  fun db =>
    let saved := {| User.id := next_id (map User.id (users db));
                    User.email := User.email u;
                    User.password := User.password u |} in
    (Return saved, set_users (fun us => (us ++ [saved])%list) db).

Definition create (vd : validated_data) (salt : string) : orm User.t :=
  let user := {| User.id := 0%nat; User.email := vd_email vd;
                 User.password := vd_password vd |} in
  let user := set_password salt (vd_password vd) user in
  do! user <- save_user user;
  ret user.

(** One field of [to_internal_value]: a required field that is absent, or
    a value the framework's validators refuse, is an error; then the
    [validate_<field>] method of the serializer runs. *)
Definition run_field (name : string) (validate_field : string -> orm string)
  (request : gmap string string) : orm string :=
  match request !! name with
  | None => raise (ValidationError (Msg "This field is required."))
  | Some v =>
      if field_validators name v then validate_field v
      else raise (ValidationError (Msg "Enter a valid value."))
  end.

Definition field_errors (name : string) (r : result string)
  : list (string * list string) :=
  match r with
  | Return _ => []
  | Raise (ValidationError (Msg m)) => [(name, [m])]
  | Raise _ => [(name, [])]
  end.

(** [serializer.is_valid(raise_exception=True)]: every writable field is
    validated and the errors are collected by field. *)
Definition is_valid (request : gmap string string) : orm validated_data :=
  fun db =>
    let r1 := fst (run_field "email" validate_email request db) in
    let r2 := fst (run_field "password"
                     (fun v => lift (validate_password v)) request db) in
    match r1, r2 with
    | Return e, Return p => (Return {| vd_email := e; vd_password := p |}, db)
    | _, _ =>
        (Raise (ValidationError
                  (MsgDict (field_errors "email" r1
                            ++ field_errors "password" r2)%list)), db)
    end.

(** Registration: [is_valid] followed by [save], which calls [create]. *)
Definition register (request : gmap string string) (salt : string)
  : orm User.t :=
  do! vd <- is_valid request;
  create vd salt.

End Framework.

End RegisterSerializer.

(** ** [ShowCartsSerializer] *)

Module ShowCartsSerializer.

Module CartProductSerializer.

(** The object serialized: a product and the item selected for it. *)
Record instance : Type := {
  product : Product.t;
  selected_item : string
}.

Definition declared : list (string * Drf.kwargs) :=
  [("selected_item", Drf.CharField)].

Definition Meta : Drf.Meta :=
  {| Drf.fields :=
       (BaseProductSerializer.Meta_fields ++ ["selected_item"; "id"])%list;
     Drf.read_only_fields :=
       (BaseProductSerializer.Meta_fields ++ ["selected_item"; "id"])%list;
     Drf.extra_kwargs := [] |}.

Definition fields : list (string * Drf.kwargs) := Drf.get_fields declared Meta.

Definition render (name : string) (i : instance) : result Drf.value :=
  if String.eqb name "title" then Return (Drf.VStr (Product.title (product i)))
  else if String.eqb name "price" then Return (Drf.VInt (Product.price (product i)))
  else if String.eqb name "option" then Return (Drf.VStr (Product.option (product i)))
  else if String.eqb name "items" then
    Return (Drf.VList (map Drf.VStr (Product.items (product i))))
  else if String.eqb name "selected_item" then Return (Drf.VStr (selected_item i))
  else if String.eqb name "id" then
    Return (Drf.VInt (Z.of_nat (Product.id (product i))))
  else Return Drf.VNone.

Definition to_representation (i : instance) : result (list (string * Drf.value)) :=
  Drf.to_representation fields render i.

End CartProductSerializer.

(** The object serialized: the summary of a cart. *)
Record instance : Type := {
  count : Z;
  total_price : Z;
  products : list CartProductSerializer.instance
}.

(** A plain [Serializer]: its fields are the declared ones, in order. *)
Definition fields : list (string * Drf.kwargs) :=
  [("count", Drf.CharField);
   ("total_price", Drf.CharField);
   ("products", Drf.NestedSerializer)].

(** A child serializer with [many=True]. *)
Fixpoint many (l : list CartProductSerializer.instance) : result (list Drf.value) :=
  match l with
  | [] => Return []
  | i :: rest =>
      let! d := CartProductSerializer.to_representation i in
      let! ds := many rest in
      Return (Drf.VDict d :: ds)
  end.

Definition render (name : string) (i : instance) : result Drf.value :=
  if String.eqb name "count" then Return (Drf.VStr (Drf.str_int (count i)))
  else if String.eqb name "total_price" then
    Return (Drf.VStr (Drf.str_int (total_price i)))
  else if String.eqb name "products" then
    let! ps := many (products i) in Return (Drf.VList ps)
  else Return Drf.VNone.

Definition to_representation (i : instance) : result (list (string * Drf.value)) :=
  Drf.to_representation fields render i.

End ShowCartsSerializer.

(** ** [CartSerializer] *)

Module CartSerializer.

Definition declared : list (string * Drf.kwargs) := [("user", Drf.HiddenField)].

Definition Meta : Drf.Meta :=
  {| Drf.fields := ["product"; "user"; "customization"];
     Drf.read_only_fields := [];
     Drf.extra_kwargs := [] |}.

Definition fields : list (string * Drf.kwargs) := Drf.get_fields declared Meta.

Section Model.

(** [Cart.clean], the model's own validation hook: it may read the
    database and raises [DjangoValidationError] on a refused entry. *)
Variable clean : Cart.t -> Db -> result unit.

Definition validate (attrs : Cart.t) : orm Cart.t :=
  fun db =>
    let cart := attrs in
    let r := try_except (clean cart db)
               (fun e => match e with
                         | DjangoValidationError message_dict =>
                             Some (Raise (ValidationError (MsgDict message_dict)))
                         | _ => None
                         end) in
    (let! _ := r in Return attrs, db).

End Model.

(** How each column of a cart entry is rendered when its field is emitted;
    a related row is rendered by its primary key. *)
Definition render (name : string) (c : Cart.t) : result Drf.value :=
  if String.eqb name "product" then Return (Drf.VInt (Z.of_nat (Cart.product c)))
  else if String.eqb name "user" then Return (Drf.VInt (Z.of_nat (Cart.user c)))
  else if String.eqb name "customization" then
    Return (Drf.VStr (Cart.customization c))
  else Return Drf.VNone.

(** [CartSerializer(instance=cart).data] *)
Definition to_representation (c : Cart.t) : result (list (string * Drf.value)) :=
  Drf.to_representation fields render c.

End CartSerializer.

(** ** [OrderListSerializer] *)

Module OrderListSerializer.

Definition declared : list (string * Drf.kwargs) :=
  [("status", Drf.SerializerMethodField);
   ("date", Drf.DateTimeField false);
   ("user", Drf.HiddenField)].

Definition date_format : string := "%d %b %Y-%H:%M".

Definition Meta : Drf.Meta :=
  {| Drf.fields := ["id"; "status"; "date"; "location"; "user"; "total_price"];
     Drf.read_only_fields := ["id"; "status"; "date"; "total_price"];
     Drf.extra_kwargs := [] |}.

Definition fields : list (string * Drf.kwargs) := Drf.get_fields declared Meta.

(** The two shapes [get_status] is given: an [Order] instance, or the
    mapping of validated data. *)
Inductive obj : Type :=
| OrderEntity (o : Order.t)
| RawStatusPayload (m : gmap string string).

(** The validated attributes of a checkout request; [user] is [None] when
    the mapping has no such key, as [attrs.get('user')] gives. *)
Record attrs : Type := {
  attrs_location : string;
  attrs_user : option nat
}.

(** [Cart.objects.filter(user=u).exists()]; the column is not nullable, so
    no row matches [None]. *)
Definition cart_exists (u : option nat) (db : Db) : bool :=
  existsb (fun c => match u with
                    | Some i => Nat.eqb (Cart.user c) i
                    | None => false
                    end) (carts db).

Definition validate (a : attrs) : orm attrs :=
  do! found <- query (cart_exists (attrs_user a));
  if negb found then raise (ValidationError (Msg "Cart is empty."))
  else ret a.

Section Model.

(** [core.orders.models.STATUS]: the labels of the status codes. *)
Variable STATUS : gmap string string.

(** The [status_label] attribute of an [Order]. *)
Variable status_label : Order.t -> string.

Definition get_status (o : obj) : result (option string) :=
  match o with
  | OrderEntity order => Return (Some (status_label order))
  | RawStatusPayload m =>
      try_except
        (let! key := getitem m "status" in
         let! default := getitem m "status" in
         Return (Some (dict_get STATUS key default)))
        (fun e => match e with
                  | KeyError _ => Some (Return None)
                  | _ => None
                  end)
  end.

Definition render (name : string) (o : Order.t) : result Drf.value :=
  if String.eqb name "id" then Return (Drf.VInt (Z.of_nat (Order.id o)))
  else if String.eqb name "status" then
    let! s := get_status (OrderEntity o) in
    Return (match s with Some l => Drf.VStr l | None => Drf.VNone end)
  else if String.eqb name "date" then
    Return (Drf.VStr (Drf.strftime date_format (Order.date o)))
  else if String.eqb name "location" then Return (Drf.VStr (Order.location o))
  else if String.eqb name "user" then Return (Drf.VInt (Z.of_nat (Order.user o)))
  else if String.eqb name "total_price" then Return (Drf.VInt (Order.total_price o))
  else Return Drf.VNone.

Definition to_representation (o : Order.t) : result (list (string * Drf.value)) :=
  Drf.to_representation fields render o.

End Model.

End OrderListSerializer.

(** ** The cart table: migration 0002 of [core.carts] *)

Module CartTable.

(** [unique_together = set([('product', 'user')])]: the columns of the
    constraint. *)
Definition unique_key (c : Cart.t) : nat * nat := (Cart.product c, Cart.user c).

Definition same_key (c c' : Cart.t) : bool :=
  Nat.eqb (Cart.product c') (Cart.product c) && Nat.eqb (Cart.user c') (Cart.user c).

(** The constraint as a property of the table. *)
Definition unique_together (rows : list Cart.t) : Prop :=
  List.NoDup (map unique_key rows).

(** Inserting a row: the constraint refuses a second row for a pair. *)
Definition insert (c : Cart.t) : orm unit :=
  fun db =>
    if existsb (same_key c) (carts db)
    then (Raise (IntegrityError "unique_together (product, user)"), db)
    else (Return tt, set_carts (fun rows => (rows ++ [c])%list) db).

(** Updating the row of a pair in place. *)
Definition update (c : Cart.t) : orm unit :=
  modify (set_carts (map (fun r => if same_key c r then c else r))).

(** Deleting the rows of a user. *)
Definition delete_user (u : nat) : orm unit :=
  modify (set_carts (List.filter (fun r => negb (Nat.eqb (Cart.user r) u)))).

End CartTable.

(** ** The product column of the cart table: migration 0002 of [core.carts] *)

Module ProductTable.

(** [product = ForeignKey(on_delete=CASCADE, to='products.Product')]: every
    cart row references a product of the catalog. *)
Definition references_ok (db : Db) : Prop :=
  Forall (fun c => In (Cart.product c) (map Product.id (products db))) (carts db).

(** Deleting a product: [CASCADE] deletes the cart rows that reference it. *)
Definition delete (product : nat) : orm unit :=
  modify (fun db =>
            set_carts
              (List.filter (fun r => negb (Nat.eqb (Cart.product r) product)))
              (set_products
                 (List.filter (fun p => negb (Nat.eqb (Product.id p) product)))
                 db)).

End ProductTable.

(** ** The cart store, pricing and checkout

    The views and model methods that save a cart entry, price a cart and
    place an order are not part of the sources at hand. *)

Module CartStore.

(** Modelled from the spec: [getCart(user)] of section 4.1, the view code
    being absent: all cart rows of the user, in table order. *)
Definition get_cart (user : nat) (db : Db) : list Cart.t :=
  List.filter (fun c => Nat.eqb (Cart.user c) user) (carts db).

(** Modelled from the spec: [clearCart(user)] of section 4.1, the view
    code being absent: deletes all cart rows of the user. *)
Definition clear_cart (user : nat) : orm unit := CartTable.delete_user user.

Section Model.

Variable clean : Cart.t -> Db -> result unit.

(** Modelled from the spec: [addToCart(user, product, customization)] of
    section 4.1, the view code being absent: the entry is validated (by
    [CartSerializer.validate], which is in the sources) and then inserted or
    updated, keyed by (user, product). *)
Definition add_to_cart (user product : nat) (customization : string)
  : orm unit :=
  do! entry <- CartSerializer.validate clean
                 {| Cart.product := product; Cart.user := user;
                    Cart.customization := customization |};
  do! found <- query (fun db => existsb (CartTable.same_key entry) (carts db));
  if (found : bool) then CartTable.update entry else CartTable.insert entry.

(** A run of [add_to_cart] calls, each given as (user, product,
    customization); a refused call leaves the table as it is. *)
Definition add_all (requests : list (nat * nat * string)) (db : Db) : Db :=
  foldl (fun d r => snd (add_to_cart (fst (fst r)) (snd (fst r)) (snd r) d))
    db requests.

End Model.

End CartStore.

Module Pricing.

(** Modelled from the spec: the effective price of an entry in section
    4.2, the pricing code being absent: the price of its product as the
    catalog has it now; customization does not alter it. *)
Definition effective_price (db : Db) (c : Cart.t) : Z :=
  match find (fun p => Nat.eqb (Product.id p) (Cart.product c)) (products db) with
  | Some p => Product.price p
  | None => 0
  end.

(** Modelled from the spec: [total_price] of section 4.2, the pricing code
    being absent: the exact sum of the entries' effective prices. *)
Definition total_price (db : Db) (entries : list Cart.t) : Z :=
  foldr (fun c acc => effective_price db c + acc) 0 entries.

(** Modelled from the spec: a later change of the price of a product in
    the catalog, which is external to the serializers. *)
Definition set_price (product : nat) (new_price : Z) (db : Db) : Db :=
  set_products
    (map (fun p => if Nat.eqb (Product.id p) product
                   then {| Product.id := Product.id p;
                           Product.title := Product.title p;
                           Product.price := new_price;
                           Product.option := Product.option p;
                           Product.items := Product.items p |}
                   else p)) db.

Definition set_prices (changes : list (nat * Z)) (db : Db) : Db :=
  foldl (fun d ch => set_price (fst ch) (snd ch) d) db changes.

End Pricing.

Module Checkout.

(** Modelled from the spec: step 3 of section 4.3, the [Order] model being
    absent: the new order is saved as one row, which gets the next primary
    key. *)
Definition save_order (o : Order.t) : orm Order.t :=
  fun db =>
    let saved := {| Order.id := next_id (map Order.id (orders db));
                    Order.status := Order.status o;
                    Order.date := Order.date o;
                    Order.location := Order.location o;
                    Order.user := Order.user o;
                    Order.total_price := Order.total_price o |} in
    (Return saved, set_orders (fun os => (os ++ [saved])%list) db).

Section Deployment.

(** The status an order is created with. *)
Variable initial_status : string.

(** Modelled from the spec: [checkout(user, location)] of section 4.3, the
    view and [Order] model code being absent: the request is validated (by
    [OrderListSerializer.validate], which is in the sources), the cart is
    fetched and priced, one order is created with the total frozen into
    it, and the cart is cleared. *)
Definition checkout (user : nat) (location : string) (now : datetime)
  : orm Order.t :=
  do! a <- OrderListSerializer.validate
             {| OrderListSerializer.attrs_location := location;
                OrderListSerializer.attrs_user := Some user |};
  do! entries <- query (CartStore.get_cart user);
  do! total <- query (fun db => Pricing.total_price db entries);
  do! order <- save_order
                 {| Order.id := 0%nat; Order.status := initial_status;
                    Order.date := now;
                    Order.location := OrderListSerializer.attrs_location a;
                    Order.user := user; Order.total_price := total |};
  do! _ <- CartStore.clear_cart user;
  ret order.

End Deployment.

End Checkout.

(** Each element of a [many=True] list is a dictionary with the five keys
    of [CartProductSerializer]. *)
Definition cart_product_shape (v : Drf.value) : Prop :=
  exists d, v = Drf.VDict d
            /\ Drf.keys d = ["title"; "price"; "option"; "selected_item"; "id"].

(** A date and time of the calendar with a year of four digits. *)
Definition calendar (dt : datetime) : Prop :=
  1000 <= Z.of_nat (year dt) <= 9999
  /\ (1 <= month dt <= 12)%nat
  /\ (1 <= day dt <= 31)%nat
  /\ (hour dt < 24)%nat
  /\ (minute dt < 60)%nat.

(** ** Example data

    Concrete tables and requests on which the properties below are
    exercised. *)

Module Examples.

Definition db_no_cart : Db :=
  {| users := [{| User.id := 1; User.email := "foo@email.com";
                  User.password := "pbkdf2_sha256$x" |}];
     products := [];
     carts := [{| Cart.product := 3; Cart.user := 2;
                  Cart.customization := "milk: skim" |}];
     orders := [] |}.

Definition STATUS_example : gmap string string :=
  {[ "w" := "Waiting"; "p" := "Preparation"; "r" := "Ready" ]}.

Definition latte : Product.t :=
  {| Product.id := 1; Product.title := "Latte"; Product.price := 5;
     Product.option := "Milk"; Product.items := ["skim"; "semi"; "whole"] |}.

Definition latte_in_cart : ShowCartsSerializer.CartProductSerializer.instance :=
  {| ShowCartsSerializer.CartProductSerializer.product := latte;
     ShowCartsSerializer.CartProductSerializer.selected_item := "skim" |}.

Definition order_1 : Order.t :=
  {| Order.id := 1; Order.status := "w";
     Order.date := {| year := 2018; month := 2; day := 20; hour := 8; minute := 0 |};
     Order.location := "take away"; Order.user := 7; Order.total_price := 9 |}.

(** A stand-in for the hasher, of the shape [algorithm$salt$hash]. *)
Definition make_password_example (salt raw : string) : string :=
  "pbkdf2_sha256$" +:+ salt +:+ "$" +:+ raw.

Definition request_valid : gmap string string :=
  {[ "email" := "valid@email.com"; "password" := "Abc12345678" ]}.

Definition db_two_products : Db :=
  {| users := [];
     products :=
       [{| Product.id := 1; Product.title := "Product A"; Product.price := 1000;
           Product.option := "size"; Product.items := ["small"; "large"] |};
        {| Product.id := 2; Product.title := "Product B"; Product.price := 1550;
           Product.option := "kind"; Product.items := [] |}];
     carts := [{| Cart.product := 1; Cart.user := 7; Cart.customization := "small" |};
               {| Cart.product := 2; Cart.user := 7; Cart.customization := "" |}];
     orders := [] |}.

(** A stand-in for [Cart.clean]: the product must be in the catalog. *)
Definition clean_known_product (c : Cart.t) (db : Db) : result unit :=
  if existsb (fun p => Nat.eqb (Product.id p) (Cart.product c)) (products db)
  then Return tt
  else Raise (DjangoValidationError [("product", ["Unknown product."])]).

Definition request_short_password : gmap string string :=
  {[ "email" := "foo@email.com"; "password" := "1234567" ]}.


End Examples.

(** * Properties *)

(** ** Results, the [orm] monad and dictionaries *)

(** A name is not in a list of literal names. *)
Ltac not_in_names :=
  let H := fresh "H" in
  simpl; intros H; repeat (destruct H as [H|H]; [discriminate H|]); exact H.

Lemma obind_query {A B : Type} (q : Db -> A) (k : A -> orm B) (db : Db) :
  obind (query q) k db = k (q db) db.
Proof. reflexivity. Qed.

Lemma getitem_Some {V : Type} (d : gmap string V) (k : string) (v : V) :
  d !! k = Some v -> getitem d k = Return v.
Proof. intros H. unfold getitem. now rewrite H. Qed.

Lemma getitem_None {V : Type} (d : gmap string V) (k : string) :
  d !! k = None -> getitem d k = Raise (KeyError k).
Proof. intros H. unfold getitem. now rewrite H. Qed.

(** ** Password validation *)

Lemma password_length_cases :
  (forall value : string,
     (String.length value < 8)%nat ->
     RegisterSerializer.validate_password value
     = Raise (ValidationError (Msg "Password must be at least 8 letters.")))
  /\ (forall value : string,
        (8 <= String.length value)%nat ->
        RegisterSerializer.validate_password value = Return value).
Proof.
  unfold RegisterSerializer.validate_password.
  split.
  - intros value Hlt.
    destruct (Z.ltb_spec (Z.of_nat (String.length value)) 8) as [_|Hge];
      [reflexivity|lia].
  - intros value Hge.
    destruct (Z.ltb_spec (Z.of_nat (String.length value)) 8) as [Hlt|_];
      [lia|reflexivity].
Qed.

(** C6: [validate_password] raises [ValidationError] on every password of
    fewer than 8 characters and returns every other password unchanged; a
    password of 8 characters passes and one of 7 fails. *)
Theorem validate_password_length_8 :
  (forall value : string,
     (String.length value < 8)%nat ->
     RegisterSerializer.validate_password value
     = Raise (ValidationError (Msg "Password must be at least 8 letters.")))
  /\ (forall value : string,
        (8 <= String.length value)%nat ->
        RegisterSerializer.validate_password value = Return value)
  /\ RegisterSerializer.validate_password "12345678" = Return "12345678"
  /\ Py.raises (RegisterSerializer.validate_password "1234567") = true.
Proof.
  destruct password_length_cases as [Hshort Hlong].
  split; [exact Hshort|]. split; [exact Hlong|]. split; reflexivity.
Qed.

Lemma validate_password_length_8_witness :
  RegisterSerializer.validate_password "Abc1234"
  = Raise (ValidationError (Msg "Password must be at least 8 letters."))
  /\ RegisterSerializer.validate_password "Abc12345678" = Return "Abc12345678".
Proof.
  split.
  - apply (proj1 validate_password_length_8 "Abc1234"). simpl. lia.
  - apply (proj1 (proj2 validate_password_length_8) "Abc12345678"). simpl. lia.
Defined.

(** ** Checkout validation *)

Lemma cart_exists_false (u : nat) (db : Db) :
  (forall c, In c (carts db) -> Cart.user c <> u) ->
  OrderListSerializer.cart_exists (Some u) db = false.
Proof.
  intros Hempty. unfold OrderListSerializer.cart_exists.
  induction (carts db) as [|c rows IH]; simpl; [reflexivity|].
  rewrite IH by (intros c' Hin; apply Hempty; now right).
  destruct (Nat.eqb_spec (Cart.user c) u) as [Heq|Hne]; [|reflexivity].
  exfalso. apply (Hempty c); [now left|assumption].
Qed.

Lemma cart_exists_true (u : nat) (db : Db) :
  CartStore.get_cart u db <> [] ->
  OrderListSerializer.cart_exists (Some u) db = true.
Proof.
  unfold OrderListSerializer.cart_exists, CartStore.get_cart.
  induction (carts db) as [|c rows IH]; simpl; [congruence|].
  destruct (Nat.eqb (Cart.user c) u); [reflexivity|]. exact IH.
Qed.

(** C1: for every user whose cart has no entries, [validate] of a checkout
    request raises [ValidationError("Cart is empty.")]; the database it
    leaves is the one it was given, so no order is created and nothing is
    changed. *)
Theorem validate_empty_cart (db : Db) (u : nat) (location : string) :
  (forall c, In c (carts db) -> Cart.user c <> u) ->
  let a := {| OrderListSerializer.attrs_location := location;
              OrderListSerializer.attrs_user := Some u |} in
  OrderListSerializer.validate a db
  = (Raise (ValidationError (Msg "Cart is empty.")), db)
  /\ orders (snd (OrderListSerializer.validate a db)) = orders db
  /\ snd (OrderListSerializer.validate a db) = db.
Proof.
  intros Hempty a.
  assert (Hv : OrderListSerializer.validate a db
               = (Raise (ValidationError (Msg "Cart is empty.")), db)).
  { unfold OrderListSerializer.validate. rewrite obind_query.
    subst a. simpl. now rewrite (cart_exists_false u db Hempty). }
  rewrite Hv. auto.
Qed.

(** A request without a user finds no cart either. *)
Lemma validate_no_user (db : Db) (location : string) :
  OrderListSerializer.validate
    {| OrderListSerializer.attrs_location := location;
       OrderListSerializer.attrs_user := None |} db
  = (Raise (ValidationError (Msg "Cart is empty.")), db).
Proof.
  unfold OrderListSerializer.validate. rewrite obind_query.
  unfold OrderListSerializer.cart_exists. simpl.
  induction (carts db) as [|c rows IH]; [reflexivity|exact IH].
Qed.

Lemma validate_empty_cart_witness :
  OrderListSerializer.validate
    {| OrderListSerializer.attrs_location := "take away";
       OrderListSerializer.attrs_user := Some 1%nat |} Examples.db_no_cart
  = (Raise (ValidationError (Msg "Cart is empty.")), Examples.db_no_cart).
Proof.
  apply (validate_empty_cart Examples.db_no_cart 1 "take away").
  simpl. intros c [Hc|[]]. subst c. simpl. lia.
Defined.

(** ** Status projection *)

(** C3: [get_status] on an [Order] returns its [status_label] whatever the
    code; on a mapping whose ['status'] is not a key of [STATUS] it returns
    that value unchanged; on a mapping without ['status'] it returns
    [None]; it raises on no input of these two shapes. *)
Theorem get_status_projection (STATUS : gmap string string)
  (status_label : Order.t -> string) :
  (forall o : Order.t,
     OrderListSerializer.get_status STATUS status_label
       (OrderListSerializer.OrderEntity o) = Return (Some (status_label o)))
  /\ (forall (m : gmap string string) (s : string),
        m !! "status" = Some s -> STATUS !! s = None ->
        OrderListSerializer.get_status STATUS status_label
          (OrderListSerializer.RawStatusPayload m) = Return (Some s))
  /\ (forall m : gmap string string,
        m !! "status" = None ->
        OrderListSerializer.get_status STATUS status_label
          (OrderListSerializer.RawStatusPayload m) = Return None)
  /\ (forall x : OrderListSerializer.obj,
        Py.raises (OrderListSerializer.get_status STATUS status_label x) = false).
Proof.
  repeat split.
  - intros m s Hm Hs. simpl.
    rewrite (getitem_Some m "status" s Hm). simpl.
    unfold dict_get. now rewrite Hs.
  - intros m Hm. simpl.
    now rewrite (getitem_None m "status" Hm).
  - intros [o|m]; simpl; [reflexivity|].
    unfold getitem. destruct (m !! "status"); reflexivity.
Qed.

(** X2: on a mapping whose ['status'] is a key of [STATUS], [get_status]
    returns the label [STATUS] gives to that code. *)
Lemma get_status_known (STATUS : gmap string string)
  (status_label : Order.t -> string) (m : gmap string string) (s l : string) :
  m !! "status" = Some s -> STATUS !! s = Some l ->
  OrderListSerializer.get_status STATUS status_label
    (OrderListSerializer.RawStatusPayload m) = Return (Some l).
Proof.
  intros Hm Hs. simpl. rewrite (getitem_Some m "status" s Hm). simpl.
  unfold dict_get. now rewrite Hs.
Qed.

Lemma get_status_projection_witness :
  OrderListSerializer.get_status Examples.STATUS_example (fun _ => "Waiting")
    (OrderListSerializer.RawStatusPayload {[ "status" := "S" ]})
  = Return (Some "S")
  /\ OrderListSerializer.get_status Examples.STATUS_example (fun _ => "Waiting")
       (OrderListSerializer.RawStatusPayload {[ "location" := "shop" ]})
     = Return None.
Proof.
  split.
  - apply (proj1 (proj2 (get_status_projection Examples.STATUS_example (fun _ => "Waiting"))));
      vm_compute; reflexivity.
  - apply (proj1 (proj2 (proj2
             (get_status_projection Examples.STATUS_example (fun _ => "Waiting")))));
      vm_compute; reflexivity.
Defined.

(** ** What the serializers emit *)

Lemma string_app_empty (s : string) : s ++ "" = s.
Proof.
  induction s as [|c s IH]; [reflexivity|].
  change (String c (String.append s "") = String c s). now rewrite IH.
Qed.

Lemma string_length_app (s1 s2 : string) :
  String.length (s1 +:+ s2) = (String.length s1 + String.length s2)%nat.
Proof.
  induction s1 as [|c s1 IH]; [reflexivity|].
  change (S (String.length (String.append s1 s2))
          = S (String.length s1 + String.length s2)).
  now rewrite IH.
Qed.

Lemma register_fields_flags :
  RegisterSerializer.fields
  = [("email", Drf.defaults); ("password", Drf.set_write_only Drf.defaults)].
Proof. reflexivity. Qed.

Lemma register_data_eq (u : User.t) :
  RegisterSerializer.data u = Return [("email", Drf.VStr (User.email u))].
Proof. reflexivity. Qed.

(** C10: the output of [RegisterSerializer] for a user has the single key
    ['email'] and is a function of the user's email alone: two users with
    the same email and any two passwords have the same output, and the
    password is not a key of it. *)
Theorem register_data_hides_password :
  (forall u : User.t,
     exists d, RegisterSerializer.data u = Return d
               /\ Drf.keys d = ["email"]
               /\ ~ In "password" (Drf.keys d))
  /\ (forall u1 u2 : User.t,
        User.email u1 = User.email u2 ->
        RegisterSerializer.data u1 = RegisterSerializer.data u2).
Proof.
  split.
  - intros u. exists [("email", Drf.VStr (User.email u))].
    split; [apply register_data_eq|]. split; [reflexivity|].
    not_in_names.
  - intros u1 u2 Heq. rewrite !register_data_eq. now rewrite Heq.
Qed.

Lemma register_data_hides_password_witness :
  RegisterSerializer.data
    {| User.id := 1; User.email := "foo@email.com"; User.password := "Aa12456789" |}
  = RegisterSerializer.data
      {| User.id := 1; User.email := "foo@email.com"; User.password := "zzzzzzzzzz" |}.
Proof.
  apply (proj2 register_data_hides_password). reflexivity.
Defined.

(** [ProductListSerializer] is the serializer that lists [items]. *)
Lemma product_list_fields :
  ProductListSerializer.Meta_fields = ["title"; "price"; "option"; "items"; "id"].
Proof. reflexivity. Qed.

(** The fields of [CartProductSerializer] and their rendering. *)
Lemma cart_product_fields_names :
  map fst ShowCartsSerializer.CartProductSerializer.fields
  = ["title"; "price"; "option"; "selected_item"; "id"].
Proof. reflexivity. Qed.

Lemma cart_product_to_representation_eq
  (i : ShowCartsSerializer.CartProductSerializer.instance) :
  ShowCartsSerializer.CartProductSerializer.to_representation i
  = Return
      [("title", Drf.VStr (Product.title
                             (ShowCartsSerializer.CartProductSerializer.product i)));
       ("price", Drf.VInt (Product.price
                             (ShowCartsSerializer.CartProductSerializer.product i)));
       ("option", Drf.VStr (Product.option
                              (ShowCartsSerializer.CartProductSerializer.product i)));
       ("selected_item",
        Drf.VStr (ShowCartsSerializer.CartProductSerializer.selected_item i));
       ("id", Drf.VInt (Z.of_nat (Product.id
                             (ShowCartsSerializer.CartProductSerializer.product i))))].
Proof. reflexivity. Qed.

Lemma many_shape (l : list ShowCartsSerializer.CartProductSerializer.instance) :
  exists ps, ShowCartsSerializer.many l = Return ps
             /\ length ps = length l
             /\ Forall cart_product_shape ps.
Proof.
  induction l as [|i l [ps [Hps [Hlen Hall]]]].
  - exists []. repeat split. constructor.
  - cbn [ShowCartsSerializer.many].
    rewrite cart_product_to_representation_eq, Hps. cbn [Py.bind].
    eexists. split; [reflexivity|]. split; [simpl; now rewrite Hlen|].
    constructor; [|exact Hall].
    eexists. split; reflexivity.
Qed.

(** C5, as the code has it: the cart summary is emitted as a dictionary
    with the keys [count], [total_price] and [products], in this order;
    [products] is a list with one dictionary per product, each with exactly
    the keys [title], [price], [option], [selected_item] and [id]. *)
Theorem show_carts_shape (s : ShowCartsSerializer.instance) :
  exists d ps,
    ShowCartsSerializer.to_representation s = Return d
    /\ Drf.keys d = ["count"; "total_price"; "products"]
    /\ Drf.assoc "products" d = Some (Drf.VList ps)
    /\ length ps = length (ShowCartsSerializer.products s)
    /\ Forall cart_product_shape ps.
Proof.
  destruct (many_shape (ShowCartsSerializer.products s)) as [ps [Hps [Hlen Hall]]].
  exists [("count", Drf.VStr (Drf.str_int (ShowCartsSerializer.count s)));
          ("total_price", Drf.VStr (Drf.str_int (ShowCartsSerializer.total_price s)));
          ("products", Drf.VList ps)], ps.
  split.
  - unfold ShowCartsSerializer.to_representation, Drf.to_representation.
    change (Drf.readable_fields ShowCartsSerializer.fields)
      with ["count"; "total_price"; "products"].
    cbn [Drf.render_fields].
    change (ShowCartsSerializer.render "products" s)
      with (let! ps0 := ShowCartsSerializer.many (ShowCartsSerializer.products s)
            in Return (Drf.VList ps0)).
    rewrite Hps. reflexivity.
  - repeat split; try reflexivity; assumption.
Qed.

(** C5, counterexample to the field list of the specification: the
    projection of a product that has items has no [items] key. *)
Lemma cart_product_items_not_emitted :
  exists d,
    ShowCartsSerializer.CartProductSerializer.to_representation
      Examples.latte_in_cart = Return d
    /\ Product.items (ShowCartsSerializer.CartProductSerializer.product
                        Examples.latte_in_cart) = ["skim"; "semi"; "whole"]
    /\ ~ In "items" (Drf.keys d)
    /\ Drf.keys d
       <> ["title"; "price"; "option"; "items"; "selected_item"; "id"].
Proof.
  eexists. split; [reflexivity|]. split; [reflexivity|]. split.
  - not_in_names.
  - simpl. discriminate.
Qed.

(** ** The order representation *)

Lemma order_fields_flags :
  OrderListSerializer.fields
  = [("id", Drf.set_read_only Drf.defaults);
     ("status", Drf.SerializerMethodField);
     ("date", Drf.DateTimeField false);
     ("location", Drf.defaults);
     ("user", Drf.HiddenField);
     ("total_price", Drf.set_read_only Drf.defaults)].
Proof. reflexivity. Qed.

(** The fields a caller can write.  [date] is declared on the class, so
    its flags are those of the declaration. *)
Lemma order_writable_fields :
  Drf.writable_fields OrderListSerializer.fields = ["date"; "location"; "user"].
Proof. reflexivity. Qed.

(** The format ['%d %b %Y-%H:%M'] spelled out. *)
Lemma strftime_date_format (dt : datetime) :
  Drf.strftime OrderListSerializer.date_format dt
  = Drf.pad2 (day dt) +:+ " " +:+ nth (pred (month dt)) Drf.month_abbr ""
    +:+ " " +:+ pretty (year dt) +:+ "-" +:+ Drf.pad2 (hour dt)
    +:+ ":" +:+ Drf.pad2 (minute dt).
Proof.
  unfold OrderListSerializer.date_format.
  cbn [Drf.strftime Ascii.eqb Bool.eqb Drf.directive].
  rewrite string_app_empty. reflexivity.
Qed.

Lemma pad2_length (n : nat) : (n < 100)%nat -> String.length (Drf.pad2 n) = 2%nat.
Proof.
  intros Hn.
  assert (Hall : forallb (fun k => Nat.eqb (String.length (Drf.pad2 k)) 2)
                   (seq 0 100) = true) by (vm_compute; reflexivity).
  rewrite forallb_forall in Hall.
  apply Nat.eqb_eq, Hall, in_seq. lia.
Qed.

Lemma month_abbr_length (m : nat) :
  (1 <= m <= 12)%nat -> String.length (nth (pred m) Drf.month_abbr "") = 3%nat.
Proof.
  intros Hm.
  assert (Hall : forallb (fun k => Nat.eqb
                    (String.length (nth (pred k) Drf.month_abbr "")) 3)
                   (seq 1 12) = true) by (vm_compute; reflexivity).
  rewrite forallb_forall in Hall.
  apply Nat.eqb_eq, Hall, in_seq. lia.
Qed.

Lemma year_length (y : nat) :
  1000 <= Z.of_nat y <= 9999 -> String.length (pretty y) = 4%nat.
Proof.
  intros Hy.
  assert (Hall : forallb (fun k => Nat.eqb (String.length (pretty k)) 4)
                   (seq 1000 (9 * 1000)) = true) by (vm_compute; reflexivity).
  rewrite forallb_forall in Hall.
  apply Nat.eqb_eq, Hall, in_seq. lia.
Qed.

(** A date of the calendar is printed on 17 characters, [DD Mon YYYY-HH:MM]. *)
Lemma strftime_date_format_length (dt : datetime) :
  1000 <= Z.of_nat (year dt) <= 9999 -> (1 <= month dt <= 12)%nat ->
  (1 <= day dt <= 31)%nat -> (hour dt < 24)%nat -> (minute dt < 60)%nat ->
  String.length (Drf.strftime OrderListSerializer.date_format dt) = 17%nat.
Proof.
  intros Hy Hm Hd Hh Hmi. rewrite strftime_date_format.
  rewrite !string_length_app.
  rewrite !pad2_length, month_abbr_length, year_length by lia.
  reflexivity.
Qed.

Lemma order_to_representation_eq (STATUS : gmap string string)
  (status_label : Order.t -> string) (o : Order.t) :
  OrderListSerializer.to_representation STATUS status_label o
  = Return
      [("id", Drf.VInt (Z.of_nat (Order.id o)));
       ("status", Drf.VStr (status_label o));
       ("date", Drf.VStr (Drf.strftime OrderListSerializer.date_format (Order.date o)));
       ("location", Drf.VStr (Order.location o));
       ("total_price", Drf.VInt (Order.total_price o))].
Proof. reflexivity. Qed.

(** C8, as the code has it: an order is emitted with exactly the keys
    [id], [status], [date], [location] and [total_price], in this order
    ([user] is a hidden input and is not emitted); [status] is the order's
    label, [date] is printed with ['%d %b %Y-%H:%M'], and [id], [status]
    and [total_price] are fields of the serializer that a caller cannot
    write. *)
Theorem order_representation (STATUS : gmap string string)
  (status_label : Order.t -> string) (o : Order.t) :
  exists d,
    OrderListSerializer.to_representation STATUS status_label o = Return d
    /\ Drf.keys d = ["id"; "status"; "date"; "location"; "total_price"]
    /\ Drf.assoc "status" d = Some (Drf.VStr (status_label o))
    /\ Drf.assoc "date" d
       = Some (Drf.VStr
                 (Drf.pad2 (day (Order.date o)) +:+ " "
                  +:+ nth (pred (month (Order.date o))) Drf.month_abbr ""
                  +:+ " " +:+ pretty (year (Order.date o)) +:+ "-"
                  +:+ Drf.pad2 (hour (Order.date o)) +:+ ":"
                  +:+ Drf.pad2 (minute (Order.date o))))
    /\ Forall (fun name => In name (map fst OrderListSerializer.fields)
                           /\ ~ In name (Drf.writable_fields OrderListSerializer.fields))
         ["id"; "status"; "total_price"].
Proof.
  eexists. split; [apply order_to_representation_eq|].
  split; [reflexivity|]. split; [reflexivity|]. split.
  - cbn [Drf.assoc String.eqb Ascii.eqb Bool.eqb].
    now rewrite strftime_date_format.
  - rewrite order_writable_fields.
    repeat constructor; simpl; try tauto; not_in_names.
Qed.

(** C8, counterexample to the field list of the specification: the
    representation of an order has no [user] key. *)
Lemma order_user_not_emitted :
  exists d,
    OrderListSerializer.to_representation Examples.STATUS_example
      (fun _ => "Waiting") Examples.order_1 = Return d
    /\ ~ In "user" (Drf.keys d)
    /\ Drf.keys d <> ["id"; "status"; "date"; "location"; "user"; "total_price"].
Proof.
  eexists. split; [reflexivity|]. split.
  - not_in_names.
  - simpl. discriminate.
Qed.

Example order_1_date :
  Drf.strftime OrderListSerializer.date_format (Order.date Examples.order_1)
  = "20 Feb 2018-08:00".
Proof. vm_compute. reflexivity. Qed.

(** ** Registration *)

Lemma email_exists_iff (value : string) (db : Db) :
  RegisterSerializer.email_exists value db = true
  <-> exists u, In u (users db) /\ User.email u = value.
Proof.
  unfold RegisterSerializer.email_exists. rewrite existsb_exists.
  split; intros [u [Hin Heq]]; exists u; split; try assumption.
  - now apply String.eqb_eq.
  - now apply String.eqb_eq.
Qed.

Lemma validate_email_taken (value : string) (db : Db) :
  RegisterSerializer.email_exists value db = true ->
  RegisterSerializer.validate_email value db
  = (Raise (ValidationError (Msg "The email is taken.")), db).
Proof.
  intros H. unfold RegisterSerializer.validate_email.
  rewrite obind_query, H. reflexivity.
Qed.

Lemma validate_email_free (value : string) (db : Db) :
  RegisterSerializer.email_exists value db = false ->
  RegisterSerializer.validate_email value db = (Return value, db).
Proof.
  intros H. unfold RegisterSerializer.validate_email.
  rewrite obind_query, H. reflexivity.
Qed.

Lemma count_email_zero (e : string) (db : Db) :
  RegisterSerializer.count_email e db = 0%nat ->
  RegisterSerializer.email_exists e db = false.
Proof.
  unfold RegisterSerializer.count_email, RegisterSerializer.email_exists.
  induction (users db) as [|u us IH]; simpl; [reflexivity|].
  destruct (String.eqb (User.email u) e); simpl; [discriminate|exact IH].
Qed.

Lemma count_email_pos (e : string) (db : Db) :
  (0 < RegisterSerializer.count_email e db)%nat ->
  RegisterSerializer.email_exists e db = true.
Proof.
  intros H.
  destruct (RegisterSerializer.email_exists e db) eqn:Hex; [reflexivity|].
  exfalso. revert H Hex.
  unfold RegisterSerializer.count_email, RegisterSerializer.email_exists.
  induction (users db) as [|u us IH]; simpl; [lia|].
  destruct (String.eqb (User.email u) e); simpl; [discriminate|exact IH].
Qed.

(** [create] appends one row: the given email, the encoded password. *)
Lemma create_eq (make_password : string -> string -> string)
  (vd : RegisterSerializer.validated_data) (salt : string) (db : Db) :
  let u := {| User.id := next_id (map User.id (users db));
              User.email := RegisterSerializer.vd_email vd;
              User.password := make_password salt (RegisterSerializer.vd_password vd) |} in
  RegisterSerializer.create make_password vd salt db
  = (Return u, set_users (fun us => (us ++ [u])%list) db).
Proof. reflexivity. Qed.

Lemma count_email_create (make_password : string -> string -> string)
  (vd : RegisterSerializer.validated_data) (salt : string) (db : Db) :
  RegisterSerializer.count_email (RegisterSerializer.vd_email vd)
    (snd (RegisterSerializer.create make_password vd salt db))
  = S (RegisterSerializer.count_email (RegisterSerializer.vd_email vd) db).
Proof.
  rewrite create_eq. unfold RegisterSerializer.count_email. simpl.
  rewrite List.filter_app, length_app. simpl.
  rewrite String.eqb_refl. simpl. lia.
Qed.

(** A request with a free email and a password the validators accept is
    valid, and registering it creates the user. *)
Lemma register_fresh (make_password : string -> string -> string)
  (field_validators : string -> string -> bool)
  (request : gmap string string) (salt e p : string) (db : Db) :
  request !! "email" = Some e -> request !! "password" = Some p ->
  field_validators "email" e = true -> field_validators "password" p = true ->
  (8 <= String.length p)%nat ->
  RegisterSerializer.email_exists e db = false ->
  RegisterSerializer.register make_password field_validators request salt db
  = RegisterSerializer.create make_password
      {| RegisterSerializer.vd_email := e; RegisterSerializer.vd_password := p |}
      salt db.
Proof.
  intros He Hp Hve Hvp Hlen Hfree.
  unfold RegisterSerializer.register, obind, RegisterSerializer.is_valid,
    RegisterSerializer.run_field.
  rewrite He, Hp, Hve, Hvp, (validate_email_free e db Hfree).
  unfold lift. rewrite (proj2 password_length_cases p Hlen).
  reflexivity.
Qed.

(** A request whose email is taken is refused and nothing is written. *)
Lemma register_taken (make_password : string -> string -> string)
  (field_validators : string -> string -> bool)
  (request : gmap string string) (salt e : string) (db : Db) :
  request !! "email" = Some e ->
  RegisterSerializer.email_exists e db = true ->
  Py.raises (fst (RegisterSerializer.register make_password field_validators
                    request salt db)) = true
  /\ snd (RegisterSerializer.register make_password field_validators
            request salt db) = db.
Proof.
  intros He Htaken.
  unfold RegisterSerializer.register, obind, RegisterSerializer.is_valid,
    RegisterSerializer.run_field.
  rewrite He.
  destruct (field_validators "email" e).
  - rewrite (validate_email_taken e db Htaken). simpl. split; reflexivity.
  - simpl. split; reflexivity.
Qed.

(** C7: [validate_email] raises [ValidationError] exactly when a user with
    the email exists, and otherwise returns the email, reading the
    database only; registering an email that no user has and then
    registering it again creates one user, the second request being
    refused. *)
Theorem validate_email_unique :
  (forall (db : Db) (value : string),
     (exists u, In u (users db) /\ User.email u = value)
     <-> RegisterSerializer.validate_email value db
         = (Raise (ValidationError (Msg "The email is taken.")), db))
  /\ (forall (db : Db) (value : string),
        ~ (exists u, In u (users db) /\ User.email u = value)
        <-> RegisterSerializer.validate_email value db = (Return value, db))
  /\ (forall (make_password : string -> string -> string)
             (field_validators : string -> string -> bool)
             (db : Db) (r1 r2 : gmap string string) (s1 s2 e p1 : string),
        r1 !! "email" = Some e -> r1 !! "password" = Some p1 ->
        r2 !! "email" = Some e ->
        field_validators "email" e = true ->
        field_validators "password" p1 = true ->
        (8 <= String.length p1)%nat ->
        RegisterSerializer.count_email e db = 0%nat ->
        let db1 := snd (RegisterSerializer.register make_password
                          field_validators r1 s1 db) in
        let out2 := RegisterSerializer.register make_password
                      field_validators r2 s2 db1 in
        RegisterSerializer.count_email e db1 = 1%nat
        /\ Py.raises (fst out2) = true
        /\ snd out2 = db1
        /\ RegisterSerializer.count_email e (snd out2) = 1%nat).
Proof.
  split; [|split].
  - intros db value. rewrite <- email_exists_iff. split.
    + apply validate_email_taken.
    + intros H. destruct (RegisterSerializer.email_exists value db) eqn:Hex;
        [reflexivity|].
      rewrite (validate_email_free value db Hex) in H. discriminate H.
  - intros db value. rewrite <- email_exists_iff. split.
    + intros H. apply validate_email_free.
      destruct (RegisterSerializer.email_exists value db); [now elim H|reflexivity].
    + intros H Hex. rewrite (validate_email_taken value db Hex) in H.
      discriminate H.
  - intros make_password field_validators db r1 r2 s1 s2 e p1
      He1 Hp1 He2 Hve Hvp Hlen Hzero db1 out2.
    assert (Hdb1 : RegisterSerializer.count_email e db1 = 1%nat).
    { subst db1.
      rewrite (register_fresh make_password field_validators r1 s1 e p1 db
                 He1 Hp1 Hve Hvp Hlen (count_email_zero e db Hzero)).
      pose proof (count_email_create make_password
                    {| RegisterSerializer.vd_email := e;
                       RegisterSerializer.vd_password := p1 |} s1 db) as Hc.
      simpl RegisterSerializer.vd_email in Hc. rewrite Hc, Hzero. reflexivity. }
    assert (Htaken : RegisterSerializer.email_exists e db1 = true)
      by (apply count_email_pos; lia).
    destruct (register_taken make_password field_validators r2 s2 e db1
                He2 Htaken) as [Hraise Hsame].
    subst out2. rewrite Hsame. auto.
Qed.

Lemma validate_email_unique_witness :
  RegisterSerializer.count_email "valid@email.com"
    (snd (RegisterSerializer.register Examples.make_password_example
            (fun _ _ => true) Examples.request_valid "salt1" Examples.db_no_cart))
  = 1%nat
  /\ RegisterSerializer.count_email "valid@email.com"
       (snd (RegisterSerializer.register Examples.make_password_example
               (fun _ _ => true) Examples.request_valid "salt2"
               (snd (RegisterSerializer.register Examples.make_password_example
                       (fun _ _ => true) Examples.request_valid "salt1"
                       Examples.db_no_cart))))
     = 1%nat.
Proof.
  pose proof (proj2 (proj2 validate_email_unique)
                Examples.make_password_example (fun _ _ => true)
                Examples.db_no_cart Examples.request_valid Examples.request_valid
                "salt1" "salt2" "valid@email.com" "Abc12345678") as H.
  cbv zeta in H.
  specialize (H ltac:(vm_compute; reflexivity) ltac:(vm_compute; reflexivity)
                ltac:(vm_compute; reflexivity) ltac:(reflexivity)
                ltac:(reflexivity) ltac:(simpl; lia)
                ltac:(vm_compute; reflexivity)).
  destruct H as [H1 [_ [_ H2]]].
  split; [exact H1|exact H2].
Defined.






(** ** The cart table and its constraint *)

Lemma same_key_spec (c r : Cart.t) :
  CartTable.same_key c r = true <-> CartTable.unique_key r = CartTable.unique_key c.
Proof.
  unfold CartTable.same_key, CartTable.unique_key.
  rewrite Bool.andb_true_iff, !Nat.eqb_eq. split.
  - intros [Hp Hu]. now rewrite Hp, Hu.
  - intros H. injection H as Hp Hu. now split.
Qed.

Lemma same_key_refl (c : Cart.t) : CartTable.same_key c c = true.
Proof. now apply same_key_spec. Qed.

Lemma existsb_same_key (c : Cart.t) (rows : list Cart.t) :
  existsb (CartTable.same_key c) rows = true
  <-> In (CartTable.unique_key c) (map CartTable.unique_key rows).
Proof.
  rewrite existsb_exists, in_map_iff.
  split; intros [r [H1 H2]]; exists r.
  - split; [now apply same_key_spec|assumption].
  - split; [assumption|now apply same_key_spec].
Qed.

Lemma unique_insert (c : Cart.t) (rows : list Cart.t) :
  CartTable.unique_together rows ->
  existsb (CartTable.same_key c) rows = false ->
  CartTable.unique_together (rows ++ [c]).
Proof.
  unfold CartTable.unique_together. intros Hnd Hfresh.
  assert (Hnotin : ~ In (CartTable.unique_key c) (map CartTable.unique_key rows)).
  { intros Hin. apply existsb_same_key in Hin. congruence. }
  clear Hfresh. induction rows as [|r rows IH]; simpl.
  - constructor; [intros []|constructor].
  - inversion Hnd as [|k ks Hk Hks]; subst. constructor.
    + rewrite map_app, in_app_iff. simpl. intros [Hin|[Heq|[]]].
      * now apply Hk.
      * apply Hnotin. left. now symmetry.
    + apply IH; [assumption|]. intros Hin. apply Hnotin. now right.
Qed.

Lemma keys_update (c : Cart.t) (rows : list Cart.t) :
  map CartTable.unique_key
    (map (fun r => if CartTable.same_key c r then c else r) rows)
  = map CartTable.unique_key rows.
Proof.
  induction rows as [|r rows IH]; simpl; [reflexivity|].
  rewrite IH. f_equal.
  destruct (CartTable.same_key c r) eqn:Hk; [|reflexivity].
  symmetry. now apply same_key_spec.
Qed.

Lemma unique_update (c : Cart.t) (rows : list Cart.t) :
  CartTable.unique_together rows ->
  CartTable.unique_together
    (map (fun r => if CartTable.same_key c r then c else r) rows).
Proof. unfold CartTable.unique_together. now rewrite keys_update. Qed.

Lemma filter_update_none (c : Cart.t) (rows : list Cart.t) :
  existsb (CartTable.same_key c) rows = false ->
  List.filter (CartTable.same_key c)
    (map (fun r => if CartTable.same_key c r then c else r) rows) = [].
Proof.
  induction rows as [|r rows IH]; simpl; [reflexivity|].
  destruct (CartTable.same_key c r) eqn:Hk; simpl; [discriminate|].
  intros H. rewrite Hk. now apply IH.
Qed.

Lemma filter_update_one (c : Cart.t) (rows : list Cart.t) :
  CartTable.unique_together rows ->
  existsb (CartTable.same_key c) rows = true ->
  List.filter (CartTable.same_key c)
    (map (fun r => if CartTable.same_key c r then c else r) rows) = [c].
Proof.
  unfold CartTable.unique_together.
  induction rows as [|r rows IH]; simpl; [discriminate|].
  intros Hnd Hex. inversion Hnd as [|k ks Hk Hks]; subst.
  destruct (CartTable.same_key c r) eqn:Hkey; simpl.
  - rewrite same_key_refl. f_equal. apply filter_update_none.
    destruct (existsb (CartTable.same_key c) rows) eqn:Hrest; [|reflexivity].
    exfalso. apply Hk. apply existsb_same_key in Hrest.
    apply same_key_spec in Hkey. now rewrite Hkey.
  - rewrite Hkey. now apply IH.
Qed.

(** [CartSerializer.validate] reads the database only, and what it returns
    is the attributes it was given. *)
Lemma cart_validate_cases (clean : Cart.t -> Db -> result unit)
  (a : Cart.t) (db : Db) :
  snd (CartSerializer.validate clean a db) = db
  /\ (fst (CartSerializer.validate clean a db) = Return a
      \/ exists e, fst (CartSerializer.validate clean a db) = Raise e).
Proof.
  unfold CartSerializer.validate. simpl. split; [reflexivity|].
  destruct (clean a db) as [[]|e]; simpl; [now left|right].
  destruct e; simpl; eauto.
Qed.

Lemma cart_validate_ok (clean : Cart.t -> Db -> result unit)
  (a : Cart.t) (db : Db) :
  clean a db = Return tt -> CartSerializer.validate clean a db = (Return a, db).
Proof. intros H. unfold CartSerializer.validate. now rewrite H. Qed.

(** A refused entry: the [message_dict] of the model's error becomes the
    detail of the serializer's [ValidationError]. *)
Lemma cart_validate_refused (clean : Cart.t -> Db -> result unit)
  (a : Cart.t) (db : Db) (d : list (string * list string)) :
  clean a db = Raise (DjangoValidationError d) ->
  CartSerializer.validate clean a db = (Raise (ValidationError (MsgDict d)), db).
Proof. intros H. unfold CartSerializer.validate. now rewrite H. Qed.

Lemma add_to_cart_ok (clean : Cart.t -> Db -> result unit)
  (user product : nat) (customization : string) (db : Db) :
  let entry := {| Cart.product := product; Cart.user := user;
                  Cart.customization := customization |} in
  clean entry db = Return tt ->
  carts (snd (CartStore.add_to_cart clean user product customization db))
  = if existsb (CartTable.same_key entry) (carts db)
    then map (fun r => if CartTable.same_key entry r then entry else r) (carts db)
    else (carts db ++ [entry])%list.
Proof.
  intros entry Hclean. unfold CartStore.add_to_cart, obind.
  fold entry. rewrite (cart_validate_ok clean entry db Hclean).
  unfold query, CartTable.update, CartTable.insert, modify.
  destruct (existsb (CartTable.same_key entry) (carts db)) eqn:Hex;
    cbv beta iota; rewrite ?Hex; reflexivity.
Qed.

Lemma add_to_cart_preserves_unique (clean : Cart.t -> Db -> result unit)
  (user product : nat) (customization : string) (db : Db) :
  CartTable.unique_together (carts db) ->
  CartTable.unique_together
    (carts (snd (CartStore.add_to_cart clean user product customization db))).
Proof.
  intros Hu. unfold CartStore.add_to_cart, obind.
  set (entry := {| Cart.product := product; Cart.user := user;
                   Cart.customization := customization |}).
  destruct (cart_validate_cases clean entry db) as [Hdb [Hok|[e He]]];
    destruct (CartSerializer.validate clean entry db) as [r db'];
    simpl in Hdb, Hok || simpl in Hdb, He; subst.
  - unfold query, CartTable.update, CartTable.insert, modify.
    destruct (existsb (CartTable.same_key entry) (carts db)) eqn:Hex;
      cbv beta iota; rewrite ?Hex; simpl.
    + now apply unique_update.
    + now apply unique_insert.
  - exact Hu.
Qed.

Lemma add_all_preserves_unique (clean : Cart.t -> Db -> result unit)
  (requests : list (nat * nat * string)) (db : Db) :
  CartTable.unique_together (carts db) ->
  CartTable.unique_together (carts (CartStore.add_all clean requests db)).
Proof.
  revert db. induction requests as [|[[u p] c] rest IH]; intros db Hu.
  - exact Hu.
  - simpl. apply IH. now apply add_to_cart_preserves_unique.
Qed.

(** C4: [add_to_cart] keeps the constraint of the cart table, one row at
    most per (product, user), through every run of calls; adding the same
    (user, product) a second time updates the row of the pair: the table
    keeps its length and holds one row for the pair, the second entry. *)
Theorem add_to_cart_unique (clean : Cart.t -> Db -> result unit)
  (db : Db) (user product : nat) (c1 c2 : string) :
  CartTable.unique_together (carts db) ->
  let e1 := {| Cart.product := product; Cart.user := user;
               Cart.customization := c1 |} in
  let e2 := {| Cart.product := product; Cart.user := user;
               Cart.customization := c2 |} in
  let db1 := snd (CartStore.add_to_cart clean user product c1 db) in
  let db2 := snd (CartStore.add_to_cart clean user product c2 db1) in
  CartTable.unique_together (carts db1)
  /\ CartTable.unique_together (carts db2)
  /\ (forall requests : list (nat * nat * string),
        CartTable.unique_together (carts (CartStore.add_all clean requests db)))
  /\ (clean e1 db = Return tt -> clean e2 db1 = Return tt ->
      List.filter (CartTable.same_key e2) (carts db2) = [e2]
      /\ length (carts db2) = length (carts db1)).
Proof.
  intros Hu e1 e2 db1 db2.
  assert (Hu1 : CartTable.unique_together (carts db1))
    by now apply add_to_cart_preserves_unique.
  split; [exact Hu1|]. split; [now apply add_to_cart_preserves_unique|].
  split; [intros requests; now apply add_all_preserves_unique|].
  intros Hc1 Hc2.
  assert (Hex : existsb (CartTable.same_key e2) (carts db1) = true).
  { subst db1. rewrite (add_to_cart_ok clean user product c1 db Hc1).
    fold e1. change (CartTable.same_key e2) with (CartTable.same_key e1).
    destruct (existsb (CartTable.same_key e1) (carts db)) eqn:Hdb.
    - apply existsb_same_key. rewrite keys_update.
      now apply existsb_same_key.
    - rewrite existsb_app. simpl. rewrite same_key_refl.
      now rewrite Bool.orb_true_r. }
  subst db2. rewrite (add_to_cart_ok clean user product c2 db1 Hc2).
  fold e2. rewrite Hex. split.
  - now apply filter_update_one.
  - now rewrite length_map.
Qed.

Lemma add_to_cart_unique_witness :
  List.filter
    (CartTable.same_key {| Cart.product := 3; Cart.user := 2;
                           Cart.customization := "milk: whole" |})
    (carts (snd (CartStore.add_to_cart (fun _ _ => Return tt) 2 3 "milk: whole"
                   (snd (CartStore.add_to_cart (fun _ _ => Return tt) 2 3
                           "milk: semi" Examples.db_no_cart)))))
  = [{| Cart.product := 3; Cart.user := 2; Cart.customization := "milk: whole" |}].
Proof.
  assert (Hu : CartTable.unique_together (carts Examples.db_no_cart)).
  { unfold CartTable.unique_together. simpl.
    constructor; [intros []|constructor]. }
  pose proof (add_to_cart_unique (fun _ _ => Return tt) Examples.db_no_cart
                2 3 "milk: semi" "milk: whole" Hu) as H.
  cbv zeta in H. destruct H as [_ [_ [_ H]]].
  exact (proj1 (H eq_refl eq_refl)).
Defined.

(** ** Checkout *)

Lemma validate_nonempty_cart (db : Db) (u : nat) (location : string) :
  CartStore.get_cart u db <> [] ->
  let a := {| OrderListSerializer.attrs_location := location;
              OrderListSerializer.attrs_user := Some u |} in
  OrderListSerializer.validate a db = (Return a, db).
Proof.
  intros Hne a. unfold OrderListSerializer.validate. rewrite obind_query.
  subst a. simpl. now rewrite (cart_exists_true u db Hne).
Qed.

Lemma get_cart_cleared (u : nat) (rows : list Cart.t) :
  List.filter (fun c => Nat.eqb (Cart.user c) u)
    (List.filter (fun r => negb (Nat.eqb (Cart.user r) u)) rows) = [].
Proof.
  induction rows as [|r rows IH]; simpl; [reflexivity|].
  destruct (Nat.eqb (Cart.user r) u) eqn:Hr; simpl; [exact IH|].
  now rewrite Hr.
Qed.

(** The cart of another user is left as it is by [clear_cart]. *)
Lemma get_cart_other (u v : nat) (rows : list Cart.t) :
  u <> v ->
  List.filter (fun c => Nat.eqb (Cart.user c) v)
    (List.filter (fun r => negb (Nat.eqb (Cart.user r) u)) rows)
  = List.filter (fun c => Nat.eqb (Cart.user c) v) rows.
Proof.
  intros Hne. induction rows as [|r rows IH]; simpl; [reflexivity|].
  destruct (Nat.eqb_spec (Cart.user r) u) as [Hu|Hu]; simpl.
  - destruct (Nat.eqb_spec (Cart.user r) v) as [Hv|Hv]; [congruence|exact IH].
  - now rewrite IH.
Qed.

Lemma set_price_orders (product : nat) (new_price : Z) (db : Db) :
  orders (Pricing.set_price product new_price db) = orders db.
Proof. reflexivity. Qed.

Lemma set_prices_orders (changes : list (nat * Z)) (db : Db) :
  orders (Pricing.set_prices changes db) = orders db.
Proof.
  revert db. induction changes as [|ch rest IH]; intros db; [reflexivity|].
  change (orders (Pricing.set_prices rest
                    (Pricing.set_price (fst ch) (snd ch) db)) = orders db).
  rewrite IH. apply set_price_orders.
Qed.

(** C2: on a non-empty cart [checkout] returns an order and appends it,
    and nothing else, to the orders; its [total_price] is the sum of the
    prices of the cart's entries at that time; afterwards the user's cart
    is empty; and whatever prices change in the catalog later, the
    orders, and so this order's [total_price], stay as they are. *)
Theorem checkout_creates_order (initial_status : string) (db : Db)
  (user : nat) (location : string) (now : datetime) :
  CartStore.get_cart user db <> [] ->
  exists order db',
    Checkout.checkout initial_status user location now db = (Return order, db')
    /\ orders db' = (orders db ++ [order])%list
    /\ Order.total_price order
       = Pricing.total_price db (CartStore.get_cart user db)
    /\ Order.user order = user
    /\ Order.location order = location
    /\ Order.status order = initial_status
    /\ CartStore.get_cart user db' = []
    /\ (forall changes : list (nat * Z),
          orders (Pricing.set_prices changes db') = (orders db ++ [order])%list
          /\ In order (orders (Pricing.set_prices changes db'))).
Proof.
  intros Hne.
  unfold Checkout.checkout, obind.
  rewrite (validate_nonempty_cart db user location Hne).
  unfold query, Checkout.save_order, CartStore.clear_cart,
    CartTable.delete_user, modify, ret. cbv beta iota.
  eexists. eexists. split; [reflexivity|].
  split; [reflexivity|]. split; [reflexivity|].
  split; [reflexivity|]. split; [reflexivity|]. split; [reflexivity|].
  split.
  - unfold CartStore.get_cart. simpl. apply get_cart_cleared.
  - intros changes. rewrite set_prices_orders. simpl.
    split; [reflexivity|]. apply in_or_app. right. now left.
Qed.

Lemma checkout_creates_order_witness :
  exists order db',
    Checkout.checkout "w" 7 "Warehouse-1" (Order.date Examples.order_1)
      Examples.db_two_products = (Return order, db')
    /\ orders db' = [order]
    /\ Order.total_price order = 2550
    /\ CartStore.get_cart 7 db' = []
    /\ Order.total_price order
       = Pricing.total_price Examples.db_two_products
           (CartStore.get_cart 7 Examples.db_two_products)
    /\ In order (orders (Pricing.set_prices [(1%nat, 9999)] db')).
Proof.
  destruct (checkout_creates_order "w" Examples.db_two_products 7 "Warehouse-1"
              (Order.date Examples.order_1))
    as [order [db' [Hrun [Horders [Htotal [_ [_ [_ [Hcart Hlater]]]]]]]]].
  - vm_compute. discriminate.
  - exists order, db'. split; [exact Hrun|]. split; [exact Horders|].
    split; [rewrite Htotal; vm_compute; reflexivity|].
    split; [exact Hcart|]. split; [exact Htotal|].
    exact (proj2 (Hlater [(1%nat, 9999)])).
Defined.

(** The scenario of the specification: products of 10.00 and 15.50 in the
    cart, in hundredths; the order keeps 25.50 after a price change, while
    the same entries would now cost more. *)
Example checkout_scenario :
  let out := Checkout.checkout "w" 7 "Warehouse-1" (Order.date Examples.order_1)
               Examples.db_two_products in
  let later := Pricing.set_prices [(1%nat, 9999)] (snd out) in
  map Order.total_price (orders later) = [2550]
  /\ map Order.location (orders later) = ["Warehouse-1"]
  /\ carts later = []
  /\ Pricing.total_price later (CartStore.get_cart 7 Examples.db_two_products)
     = 11549.
Proof. vm_compute. repeat split; reflexivity. Qed.

(** * Further properties of the serializers *)

(** ** [OrderListSerializer.validate] on any request *)

Lemma cart_exists_iff (u : option nat) (db : Db) :
  OrderListSerializer.cart_exists u db = true
  <-> exists c, In c (carts db) /\ u = Some (Cart.user c).
Proof.
  unfold OrderListSerializer.cart_exists. rewrite existsb_exists.
  split; intros [c [Hin Hc]]; exists c; (split; [exact Hin|]).
  - destruct u as [i|]; [|discriminate]. apply Nat.eqb_eq in Hc. now rewrite Hc.
  - rewrite Hc. apply Nat.eqb_refl.
Qed.

(** X1: [validate] accepts a checkout request exactly when a cart row belongs
    to the request's user, and then returns the attributes unchanged;
    otherwise it raises ["Cart is empty."]; in both cases it leaves the
    database as it is. *)
Theorem order_validate_iff (db : Db) (a : OrderListSerializer.attrs) :
  snd (OrderListSerializer.validate a db) = db
  /\ (fst (OrderListSerializer.validate a db) = Return a
      <-> exists c, In c (carts db)
                    /\ OrderListSerializer.attrs_user a = Some (Cart.user c))
  /\ (fst (OrderListSerializer.validate a db)
      = Raise (ValidationError (Msg "Cart is empty."))
      <-> ~ exists c, In c (carts db)
                      /\ OrderListSerializer.attrs_user a = Some (Cart.user c)).
Proof.
  rewrite <- cart_exists_iff.
  unfold OrderListSerializer.validate. rewrite obind_query.
  destruct (OrderListSerializer.cart_exists (OrderListSerializer.attrs_user a) db);
    simpl; (split; [reflexivity|]); split; split; intros H;
    try reflexivity; try discriminate H; try (now elim H);
    try (intros H'; discriminate H').
Qed.

(** ** [get_status] on a mapping *)

(** X3: on a mapping [get_status] returns [None] exactly when the mapping has
    no ['status'] key. *)
Theorem get_status_none_iff (STATUS : gmap string string)
  (status_label : Order.t -> string) (m : gmap string string) :
  OrderListSerializer.get_status STATUS status_label
    (OrderListSerializer.RawStatusPayload m) = Return None
  <-> m !! "status" = None.
Proof.
  simpl. unfold getitem. destruct (m !! "status") as [s|]; simpl.
  - split; intros H; discriminate H.
  - split; reflexivity.
Qed.

Lemma get_status_known_witness :
  OrderListSerializer.get_status Examples.STATUS_example (fun _ => "Ready")
    (OrderListSerializer.RawStatusPayload {[ "status" := "p" ]})
  = Return (Some "Preparation").
Proof.
  apply (get_status_known Examples.STATUS_example (fun _ => "Ready")
           {[ "status" := "p" ]} "p" "Preparation");
    vm_compute; reflexivity.
Defined.

(** ** [CartSerializer.validate] and the model's errors *)

(** X4: [CartSerializer.validate] leaves the database as it is; it never raises
    the model's [DjangoValidationError]: such an error of [clean] comes out
    as the serializer's [ValidationError] with the same [message_dict];
    and what it returns is the attributes it was given, which [clean]
    has accepted. *)
Theorem cart_validate_translates (clean : Cart.t -> Db -> result unit)
  (a : Cart.t) (db : Db) :
  snd (CartSerializer.validate clean a db) = db
  /\ (forall d, fst (CartSerializer.validate clean a db)
                <> Raise (DjangoValidationError d))
  /\ (forall v, fst (CartSerializer.validate clean a db) = Return v ->
                v = a /\ clean a db = Return tt)
  /\ (forall d, clean a db = Raise (DjangoValidationError d) ->
                fst (CartSerializer.validate clean a db)
                = Raise (ValidationError (MsgDict d))).
Proof.
  unfold CartSerializer.validate. simpl.
  split; [reflexivity|].
  destruct (clean a db) as [[]|e]; simpl.
  - split; [intros d H; discriminate H|]. split.
    + intros v H. injection H as <-. now split.
    + intros d H. discriminate H.
  - destruct e; simpl;
      (split; [intros d' H; discriminate H|]);
      (split; [intros v H; discriminate H|]);
      intros d' H; try discriminate H.
    injection H as <-. reflexivity.
Qed.

Lemma cart_validate_translates_witness :
  fst (CartSerializer.validate Examples.clean_known_product
         {| Cart.product := 9; Cart.user := 7; Cart.customization := "" |}
         Examples.db_two_products)
  = Raise (ValidationError (MsgDict [("product", ["Unknown product."])])).
Proof.
  apply (proj2 (proj2 (proj2
           (cart_validate_translates Examples.clean_known_product
              {| Cart.product := 9; Cart.user := 7; Cart.customization := "" |}
              Examples.db_two_products)))).
  reflexivity.
Defined.

(** ** The date format ['%d %b %Y-%H:%M'] *)

Lemma string_of_length_2 (s : string) :
  String.length s = 2%nat -> exists a b, s = String a (String b "").
Proof.
  destruct s as [|a [|b [|c s]]]; simpl; intros H; try discriminate H.
  now exists a, b.
Qed.

Lemma string_of_length_3 (s : string) :
  String.length s = 3%nat -> exists a b c, s = String a (String b (String c "")).
Proof.
  destruct s as [|a [|b [|c [|d s]]]]; simpl; intros H; try discriminate H.
  now exists a, b, c.
Qed.

Lemma string_of_length_4 (s : string) :
  String.length s = 4%nat ->
  exists a b c d, s = String a (String b (String c (String d ""))).
Proof.
  destruct s as [|a [|b [|c [|d [|e s]]]]]; simpl; intros H; try discriminate H.
  now exists a, b, c, d.
Qed.

Lemma pad2_inj (n m : nat) :
  (n < 100)%nat -> (m < 100)%nat -> Drf.pad2 n = Drf.pad2 m -> n = m.
Proof.
  intros Hn Hm Heq.
  assert (Hall : forallb (fun i => forallb (fun j =>
                    if String.eqb (Drf.pad2 i) (Drf.pad2 j)
                    then Nat.eqb i j else true) (seq 0 100)) (seq 0 100) = true)
    by (vm_compute; reflexivity).
  rewrite forallb_forall in Hall.
  specialize (Hall n ltac:(apply in_seq; lia)).
  rewrite forallb_forall in Hall.
  specialize (Hall m ltac:(apply in_seq; lia)).
  rewrite Heq, String.eqb_refl in Hall. now apply Nat.eqb_eq.
Qed.

Lemma month_abbr_inj (n m : nat) :
  (1 <= n <= 12)%nat -> (1 <= m <= 12)%nat ->
  nth (pred n) Drf.month_abbr "" = nth (pred m) Drf.month_abbr "" -> n = m.
Proof.
  intros Hn Hm Heq.
  assert (Hall : forallb (fun i => forallb (fun j =>
                    if String.eqb (nth (pred i) Drf.month_abbr "")
                                  (nth (pred j) Drf.month_abbr "")
                    then Nat.eqb i j else true) (seq 1 12)) (seq 1 12) = true)
    by (vm_compute; reflexivity).
  rewrite forallb_forall in Hall.
  specialize (Hall n ltac:(apply in_seq; lia)).
  rewrite forallb_forall in Hall.
  specialize (Hall m ltac:(apply in_seq; lia)).
  rewrite Heq, String.eqb_refl in Hall. now apply Nat.eqb_eq.
Qed.

(** The characters of a printed calendar date, one by one. *)
Lemma strftime_chars (dt : datetime) :
  calendar dt ->
  exists d1 d2 b1 b2 b3 y1 y2 y3 y4 h1 h2 m1 m2,
    Drf.pad2 (day dt) = String d1 (String d2 "")
    /\ nth (pred (month dt)) Drf.month_abbr "" = String b1 (String b2 (String b3 ""))
    /\ pretty (year dt) = String y1 (String y2 (String y3 (String y4 "")))
    /\ Drf.pad2 (hour dt) = String h1 (String h2 "")
    /\ Drf.pad2 (minute dt) = String m1 (String m2 "")
    /\ Drf.strftime OrderListSerializer.date_format dt
       = String d1 (String d2 (String " "
           (String b1 (String b2 (String b3 (String " "
              (String y1 (String y2 (String y3 (String y4 (String "-"
                 (String h1 (String h2 (String ":"
                    (String m1 (String m2 "")))))))))))))))).
Proof.
  intros [Hy [Hm [Hd [Hh Hmi]]]].
  destruct (string_of_length_2 _ (pad2_length (day dt) ltac:(lia))) as [d1 [d2 Ed]].
  destruct (string_of_length_3 _ (month_abbr_length (month dt) Hm))
    as [b1 [b2 [b3 Eb]]].
  destruct (string_of_length_4 _ (year_length (year dt) Hy))
    as [y1 [y2 [y3 [y4 Ey]]]].
  destruct (string_of_length_2 _ (pad2_length (hour dt) ltac:(lia))) as [h1 [h2 Eh]].
  destruct (string_of_length_2 _ (pad2_length (minute dt) ltac:(lia)))
    as [m1 [m2 Em]].
  exists d1, d2, b1, b2, b3, y1, y2, y3, y4, h1, h2, m1, m2.
  repeat (split; [assumption|]).
  rewrite strftime_date_format, Ed, Eb, Ey, Eh, Em. reflexivity.
Qed.

(** X5: a calendar date is printed on 17 characters with the separators of
    [DD Mon YYYY-HH:MM] at their places: spaces after the day and the
    month, a dash after the year, a colon between hour and minute. *)
Theorem date_format_shape (dt : datetime) :
  calendar dt ->
  let s := Drf.strftime OrderListSerializer.date_format dt in
  String.length s = 17%nat
  /\ String.get 2 s = Some " "%char
  /\ String.get 6 s = Some " "%char
  /\ String.get 11 s = Some "-"%char
  /\ String.get 14 s = Some ":"%char
  /\ String.substring 0 2 s = Drf.pad2 (day dt)
  /\ String.substring 3 3 s = nth (pred (month dt)) Drf.month_abbr ""
  /\ String.substring 7 4 s = pretty (year dt)
  /\ String.substring 12 2 s = Drf.pad2 (hour dt)
  /\ String.substring 15 2 s = Drf.pad2 (minute dt).
Proof.
  intros Hcal s.
  destruct (strftime_chars dt Hcal)
    as (d1 & d2 & b1 & b2 & b3 & y1 & y2 & y3 & y4 & h1 & h2 & m1 & m2
        & Ed & Eb & Ey & Eh & Em & Es).
  subst s. rewrite Es, Ed, Eb, Ey, Eh, Em. repeat split; reflexivity.
Qed.

Lemma date_format_shape_witness :
  String.length
    (Drf.strftime OrderListSerializer.date_format (Order.date Examples.order_1))
  = 17%nat.
Proof.
  apply (date_format_shape (Order.date Examples.order_1)).
  unfold calendar. simpl. lia.
Defined.

(** X6: two calendar dates printed alike are the same date, to the minute:
    the printed form loses nothing of year, month, day, hour and minute. *)
Theorem date_format_injective (dt1 dt2 : datetime) :
  calendar dt1 -> calendar dt2 ->
  Drf.strftime OrderListSerializer.date_format dt1
  = Drf.strftime OrderListSerializer.date_format dt2 ->
  dt1 = dt2.
Proof.
  intros Hc1 Hc2 Heq.
  destruct (strftime_chars dt1 Hc1)
    as (d1 & d2 & b1 & b2 & b3 & y1 & y2 & y3 & y4 & h1 & h2 & m1 & m2
        & Ed & Eb & Ey & Eh & Em & Es).
  destruct (strftime_chars dt2 Hc2)
    as (d1' & d2' & b1' & b2' & b3' & y1' & y2' & y3' & y4' & h1' & h2'
        & m1' & m2' & Ed' & Eb' & Ey' & Eh' & Em' & Es').
  rewrite Es, Es' in Heq. injection Heq as -> -> -> -> -> -> -> -> -> -> -> -> ->.
  rewrite <- Ed' in Ed. rewrite <- Eb' in Eb. rewrite <- Ey' in Ey.
  rewrite <- Eh' in Eh. rewrite <- Em' in Em.
  destruct Hc1 as [Hy1 [Hm1 [Hd1 [Hh1 Hmi1]]]].
  destruct Hc2 as [Hy2 [Hm2 [Hd2 [Hh2 Hmi2]]]].
  apply pad2_inj in Ed; [|lia|lia].
  apply month_abbr_inj in Eb; [|lia|lia].
  apply pretty_nat_inj in Ey.
  apply pad2_inj in Eh; [|lia|lia].
  apply pad2_inj in Em; [|lia|lia].
  destruct dt1, dt2. simpl in *. congruence.
Qed.

Lemma date_format_injective_witness :
  Order.date Examples.order_1
  = {| year := 2018; month := 2; day := 20; hour := 8; minute := 0 |}.
Proof.
  apply (date_format_injective (Order.date Examples.order_1)
           {| year := 2018; month := 2; day := 20; hour := 8; minute := 0 |}).
  - unfold calendar. simpl. lia.
  - unfold calendar. simpl. lia.
  - reflexivity.
Defined.

(** ** Registration as a whole *)

Lemma email_exists_false_iff (e : string) (db : Db) :
  RegisterSerializer.email_exists e db = false
  <-> forall u, In u (users db) -> User.email u <> e.
Proof.
  split.
  - intros Hf u Hin Heq.
    assert (Ht : RegisterSerializer.email_exists e db = true)
      by (apply email_exists_iff; now exists u).
    congruence.
  - intros Hall.
    destruct (RegisterSerializer.email_exists e db) eqn:Hex; [|reflexivity].
    apply email_exists_iff in Hex. destruct Hex as [u [Hin Heq]].
    now elim (Hall u Hin).
Qed.

(** [is_valid] reads the database only, and an invalid request is reported
    as a [ValidationError] with a dictionary of errors by field. *)
Lemma is_valid_cases (field_validators : string -> string -> bool)
  (request : gmap string string) (db : Db) :
  (exists vd, RegisterSerializer.is_valid field_validators request db
              = (Return vd, db))
  \/ (exists d, RegisterSerializer.is_valid field_validators request db
                = (Raise (ValidationError (MsgDict d)), db)).
Proof.
  unfold RegisterSerializer.is_valid.
  destruct (fst (RegisterSerializer.run_field field_validators "email"
                   RegisterSerializer.validate_email request db)) as [e|ex];
    destruct (fst (RegisterSerializer.run_field field_validators "password"
                     (fun v => lift (RegisterSerializer.validate_password v))
                     request db)) as [p|ex'];
    eauto.
Qed.

Lemma register_ok_inv (make_password : string -> string -> string)
  (field_validators : string -> string -> bool)
  (request : gmap string string) (salt : string) (db : Db) :
  Py.raises (fst (RegisterSerializer.register make_password field_validators
                    request salt db)) = false ->
  exists e p,
    request !! "email" = Some e /\ request !! "password" = Some p
    /\ field_validators "email" e = true
    /\ field_validators "password" p = true
    /\ (forall u, In u (users db) -> User.email u <> e)
    /\ (8 <= String.length p)%nat.
Proof.
  unfold RegisterSerializer.register, obind, RegisterSerializer.is_valid,
    RegisterSerializer.run_field.
  destruct (request !! "email") as [e|] eqn:He;
    destruct (request !! "password") as [p|] eqn:Hp;
    [|cbn; try destruct (field_validators "email" e);
      try destruct (RegisterSerializer.validate_email e db) as [[] ?];
      cbn; intros H; discriminate H..].
  destruct (field_validators "email" e) eqn:Hve;
    destruct (field_validators "password" p) eqn:Hvp;
    destruct (RegisterSerializer.email_exists e db) eqn:Hex;
    rewrite ?(validate_email_taken e db Hex), ?(validate_email_free e db Hex);
    unfold lift, raise;
    destruct (le_lt_dec 8 (String.length p)) as [Hlen|Hlen];
    rewrite ?(proj2 password_length_cases p Hlen),
      ?(proj1 password_length_cases p Hlen);
    cbn; intros H; try discriminate H.
  exists e, p. split; [reflexivity|]. split; [reflexivity|].
  split; [exact Hve|]. split; [exact Hvp|].
  split; [now apply email_exists_false_iff|exact Hlen].
Qed.

(** X7: registration succeeds exactly on a request that has an email and a
    password which the framework's validators accept, whose email no user
    has, and whose password has 8 characters or more. *)
Theorem register_succeeds_iff (make_password : string -> string -> string)
  (field_validators : string -> string -> bool)
  (request : gmap string string) (salt : string) (db : Db) :
  Py.raises (fst (RegisterSerializer.register make_password field_validators
                    request salt db)) = false
  <-> exists e p,
        request !! "email" = Some e /\ request !! "password" = Some p
        /\ field_validators "email" e = true
        /\ field_validators "password" p = true
        /\ (forall u, In u (users db) -> User.email u <> e)
        /\ (8 <= String.length p)%nat.
Proof.
  split; [apply register_ok_inv|].
  intros (e & p & He & Hp & Hve & Hvp & Hfree & Hlen).
  rewrite (register_fresh make_password field_validators request salt e p db
             He Hp Hve Hvp Hlen (proj2 (email_exists_false_iff e db) Hfree)).
  reflexivity.
Qed.

(** X8: a refused registration writes nothing: validation comes before the
    only write, and the error is a [ValidationError] by field. *)
Theorem register_refused_no_write (make_password : string -> string -> string)
  (field_validators : string -> string -> bool)
  (request : gmap string string) (salt : string) (db : Db) :
  Py.raises (fst (RegisterSerializer.register make_password field_validators
                    request salt db)) = true ->
  snd (RegisterSerializer.register make_password field_validators
         request salt db) = db
  /\ exists d, fst (RegisterSerializer.register make_password field_validators
                      request salt db) = Raise (ValidationError (MsgDict d)).
Proof.
  unfold RegisterSerializer.register, obind.
  destruct (is_valid_cases field_validators request db) as [[vd Hv]|[d Hv]];
    rewrite Hv.
  - rewrite create_eq. simpl. intros H. discriminate H.
  - simpl. intros _. split; [reflexivity|]. now exists d.
Qed.

(** X9: an accepted registration adds one user, with the email of the request
    and the encoded password, after the users there were. *)
Theorem register_accepted_adds_one (make_password : string -> string -> string)
  (field_validators : string -> string -> bool)
  (request : gmap string string) (salt : string) (db : Db) :
  Py.raises (fst (RegisterSerializer.register make_password field_validators
                    request salt db)) = false ->
  exists u p,
    RegisterSerializer.register make_password field_validators request salt db
    = (Return u, set_users (fun us => (us ++ [u])%list) db)
    /\ request !! "email" = Some (User.email u)
    /\ request !! "password" = Some p
    /\ User.password u = make_password salt p.
Proof.
  intros H. apply register_ok_inv in H.
  destruct H as (e & p & He & Hp & Hve & Hvp & Hfree & Hlen).
  rewrite (register_fresh make_password field_validators request salt e p db
             He Hp Hve Hvp Hlen (proj2 (email_exists_false_iff e db) Hfree)).
  rewrite create_eq. simpl.
  eexists. exists p. split; [reflexivity|]. simpl. auto.
Qed.

(** X10: a request with a taken email and a short password is refused with
    both messages, each under its field. *)
Theorem is_valid_collects_errors (field_validators : string -> string -> bool)
  (request : gmap string string) (e p : string) (db : Db) :
  request !! "email" = Some e -> request !! "password" = Some p ->
  field_validators "email" e = true -> field_validators "password" p = true ->
  (exists u, In u (users db) /\ User.email u = e) ->
  (String.length p < 8)%nat ->
  RegisterSerializer.is_valid field_validators request db
  = (Raise (ValidationError
              (MsgDict [("email", ["The email is taken."]);
                        ("password", ["Password must be at least 8 letters."])])),
     db).
Proof.
  intros He Hp Hve Hvp Htaken Hlen.
  apply email_exists_iff in Htaken.
  unfold RegisterSerializer.is_valid, RegisterSerializer.run_field.
  rewrite He, Hp, Hve, Hvp, (validate_email_taken e db Htaken).
  unfold lift. rewrite (proj1 password_length_cases p Hlen). reflexivity.
Qed.

Lemma register_succeeds_iff_witness :
  Py.raises (fst (RegisterSerializer.register Examples.make_password_example
                    (fun _ _ => true) Examples.request_valid "salt"
                    Examples.db_no_cart)) = false.
Proof.
  apply (register_succeeds_iff Examples.make_password_example (fun _ _ => true)
           Examples.request_valid "salt" Examples.db_no_cart).
  exists "valid@email.com", "Abc12345678".
  split; [vm_compute; reflexivity|]. split; [vm_compute; reflexivity|].
  split; [reflexivity|]. split; [reflexivity|]. split.
  - simpl. intros u [Hu|[]]. subst u. simpl. discriminate.
  - simpl. lia.
Defined.

Lemma register_refused_no_write_witness :
  snd (RegisterSerializer.register Examples.make_password_example
         (fun _ _ => true) Examples.request_short_password "salt"
         Examples.db_no_cart) = Examples.db_no_cart.
Proof.
  apply (register_refused_no_write Examples.make_password_example
           (fun _ _ => true) Examples.request_short_password "salt"
           Examples.db_no_cart).
  vm_compute. reflexivity.
Defined.

Lemma register_accepted_adds_one_witness :
  exists u p,
    RegisterSerializer.register Examples.make_password_example
      (fun _ _ => true) Examples.request_valid "salt" Examples.db_no_cart
    = (Return u, set_users (fun us => (us ++ [u])%list) Examples.db_no_cart)
    /\ Examples.request_valid !! "email" = Some (User.email u)
    /\ Examples.request_valid !! "password" = Some p
    /\ User.password u = Examples.make_password_example "salt" p.
Proof.
  apply (register_accepted_adds_one Examples.make_password_example
           (fun _ _ => true) Examples.request_valid "salt" Examples.db_no_cart).
  vm_compute. reflexivity.
Defined.

Lemma is_valid_collects_errors_witness :
  RegisterSerializer.is_valid (fun _ _ => true)
    Examples.request_short_password Examples.db_no_cart
  = (Raise (ValidationError
              (MsgDict [("email", ["The email is taken."]);
                        ("password", ["Password must be at least 8 letters."])])),
     Examples.db_no_cart).
Proof.
  apply (is_valid_collects_errors (fun _ _ => true)
           Examples.request_short_password "foo@email.com" "1234567"
           Examples.db_no_cart);
    try (vm_compute; reflexivity).
  eexists. split; [left; reflexivity|reflexivity].
Defined.

(** ** The constraints of migration 0002 *)

Lemma existsb_same_key_iff (c : Cart.t) (rows : list Cart.t) :
  existsb (CartTable.same_key c) rows = true
  <-> exists r, In r rows /\ Cart.product r = Cart.product c
                /\ Cart.user r = Cart.user c.
Proof.
  rewrite existsb_exists. unfold CartTable.same_key.
  split; intros [r [Hin H]]; exists r; (split; [exact Hin|]).
  - apply Bool.andb_true_iff in H. now rewrite !Nat.eqb_eq in H.
  - apply Bool.andb_true_iff. now rewrite !Nat.eqb_eq.
Qed.

(** X11: under [unique_together (product, user)] an insert of a pair that has a
    row is refused with [IntegrityError] and changes nothing; an insert of
    a new pair appends the row; either way a table that satisfies the
    constraint still does. *)
Theorem cart_insert_constraint (c : Cart.t) (db : Db) :
  ((exists r, In r (carts db) /\ Cart.product r = Cart.product c
              /\ Cart.user r = Cart.user c) ->
   CartTable.insert c db
   = (Raise (IntegrityError "unique_together (product, user)"), db))
  /\ ((~ exists r, In r (carts db) /\ Cart.product r = Cart.product c
                   /\ Cart.user r = Cart.user c) ->
      CartTable.insert c db
      = (Return tt, set_carts (fun rows => (rows ++ [c])%list) db))
  /\ (CartTable.unique_together (carts db) ->
      CartTable.unique_together (carts (snd (CartTable.insert c db)))).
Proof.
  unfold CartTable.insert.
  destruct (existsb (CartTable.same_key c) (carts db)) eqn:Hex.
  - split; [reflexivity|]. split; [|auto].
    intros Hno. elim Hno. now apply existsb_same_key_iff.
  - split; [|split; [reflexivity|]].
    + intros Hdup. apply existsb_same_key_iff in Hdup. congruence.
    + intros Hu. simpl. now apply unique_insert.
Qed.

Lemma cart_insert_constraint_witness :
  CartTable.insert {| Cart.product := 3; Cart.user := 2; Cart.customization := "" |}
    Examples.db_no_cart
  = (Raise (IntegrityError "unique_together (product, user)"), Examples.db_no_cart).
Proof.
  apply (proj1 (cart_insert_constraint
                  {| Cart.product := 3; Cart.user := 2; Cart.customization := "" |}
                  Examples.db_no_cart)).
  eexists. split; [left; reflexivity|]. split; reflexivity.
Defined.

Lemma NoDup_map_filter {A B : Type} (f : A -> B) (g : A -> bool) (l : list A) :
  List.NoDup (map f l) -> List.NoDup (map f (List.filter g l)).
Proof.
  induction l as [|x l IH]; simpl; intros Hnd; [constructor|].
  inversion Hnd as [|k ks Hk Hks]; subst.
  destruct (g x); simpl; [|now apply IH].
  constructor; [|now apply IH].
  intros Hin. apply Hk. apply in_map_iff in Hin.
  destruct Hin as [y [Hy Hiny]]. apply (proj1 (filter_In _ _ _)) in Hiny.
  apply in_map_iff. exists y. tauto.
Qed.

(** X12: deleting a product cascades: afterwards no cart row references it and
    it is not in the catalog, the other cart rows are kept, and a database
    whose cart rows reference catalog products and satisfy the uniqueness
    constraint still does. *)
Theorem product_delete_cascades (product : nat) (db : Db) :
  let db' := snd (ProductTable.delete product db) in
  (forall c, In c (carts db') -> Cart.product c <> product)
  /\ (forall p, In p (products db') -> Product.id p <> product)
  /\ (forall c, In c (carts db) -> Cart.product c <> product -> In c (carts db'))
  /\ (ProductTable.references_ok db -> ProductTable.references_ok db')
  /\ (CartTable.unique_together (carts db) ->
      CartTable.unique_together (carts db')).
Proof.
  simpl. repeat split.
  - intros c Hin. apply (proj1 (filter_In _ _ _)) in Hin. destruct Hin as [_ Hne].
    apply Bool.negb_true_iff, Nat.eqb_neq in Hne. exact Hne.
  - intros p Hin. apply (proj1 (filter_In _ _ _)) in Hin. destruct Hin as [_ Hne].
    apply Bool.negb_true_iff, Nat.eqb_neq in Hne. exact Hne.
  - intros c Hin Hne. apply (proj2 (filter_In _ _ _)). split; [exact Hin|].
    now apply Bool.negb_true_iff, Nat.eqb_neq.
  - unfold ProductTable.references_ok. simpl. rewrite !List.Forall_forall.
    intros Hok c Hin. apply (proj1 (filter_In _ _ _)) in Hin. destruct Hin as [Hin Hne].
    apply Bool.negb_true_iff, Nat.eqb_neq in Hne.
    specialize (Hok c Hin). apply in_map_iff in Hok.
    destruct Hok as [p [Hid Hp]]. apply in_map_iff. exists p.
    split; [exact Hid|]. apply (proj2 (filter_In _ _ _)). split; [exact Hp|].
    apply Bool.negb_true_iff, Nat.eqb_neq. congruence.
  - unfold CartTable.unique_together. apply NoDup_map_filter.
Qed.

Lemma product_delete_cascades_witness :
  ProductTable.references_ok (snd (ProductTable.delete 1 Examples.db_two_products)).
Proof.
  apply (proj1 (proj2 (proj2 (proj2
           (product_delete_cascades 1 Examples.db_two_products))))).
  unfold ProductTable.references_ok. simpl.
  constructor; [auto|]. constructor; [auto|]. constructor.
Defined.

(** ** What the product and cart serializers emit *)

(** X13: a collection of products is emitted as one dictionary per product, in
    the order of the collection, each with the keys [title], [price],
    [option], [items] and [id]; the items of a product are emitted as a
    list, one entry per item. *)
Theorem product_list_many (l : list Product.t) :
  ProductListSerializer.many l
  = Return
      (map (fun p =>
              Drf.VDict
                [("title", Drf.VStr (Product.title p));
                 ("price", Drf.VInt (Product.price p));
                 ("option", Drf.VStr (Product.option p));
                 ("items", Drf.VList (map Drf.VStr (Product.items p)));
                 ("id", Drf.VInt (Z.of_nat (Product.id p)))]) l).
Proof.
  induction l as [|p l IH]; [reflexivity|].
  cbn [ProductListSerializer.many map]. rewrite IH. reflexivity.
Qed.

(** X14: the cart summary is emitted with [count] and [total_price] as decimal
    text and with the products in the order of the summary, each by its
    title, price, option, selected item and id. *)
Theorem show_carts_representation (s : ShowCartsSerializer.instance) :
  ShowCartsSerializer.to_representation s
  = Return
      [("count", Drf.VStr (pretty (ShowCartsSerializer.count s)));
       ("total_price", Drf.VStr (pretty (ShowCartsSerializer.total_price s)));
       ("products",
        Drf.VList
          (map (fun i =>
                  Drf.VDict
                    [("title", Drf.VStr (Product.title
                        (ShowCartsSerializer.CartProductSerializer.product i)));
                     ("price", Drf.VInt (Product.price
                        (ShowCartsSerializer.CartProductSerializer.product i)));
                     ("option", Drf.VStr (Product.option
                        (ShowCartsSerializer.CartProductSerializer.product i)));
                     ("selected_item",
                      Drf.VStr
                        (ShowCartsSerializer.CartProductSerializer.selected_item i));
                     ("id", Drf.VInt (Z.of_nat (Product.id
                        (ShowCartsSerializer.CartProductSerializer.product i))))])
             (ShowCartsSerializer.products s)))].
Proof.
  assert (Hmany : forall l,
             ShowCartsSerializer.many l
             = Return (map (fun i => Drf.VDict
                 [("title", Drf.VStr (Product.title
                     (ShowCartsSerializer.CartProductSerializer.product i)));
                  ("price", Drf.VInt (Product.price
                     (ShowCartsSerializer.CartProductSerializer.product i)));
                  ("option", Drf.VStr (Product.option
                     (ShowCartsSerializer.CartProductSerializer.product i)));
                  ("selected_item",
                   Drf.VStr
                     (ShowCartsSerializer.CartProductSerializer.selected_item i));
                  ("id", Drf.VInt (Z.of_nat (Product.id
                     (ShowCartsSerializer.CartProductSerializer.product i))))]) l)).
  { induction l as [|i l IH]; [reflexivity|].
    cbn [ShowCartsSerializer.many map]. rewrite IH. reflexivity. }
  unfold ShowCartsSerializer.to_representation, Drf.to_representation.
  change (Drf.readable_fields ShowCartsSerializer.fields)
    with ["count"; "total_price"; "products"].
  cbn [Drf.render_fields].
  change (ShowCartsSerializer.render "products" s)
    with (let! ps0 := ShowCartsSerializer.many (ShowCartsSerializer.products s)
          in Return (Drf.VList ps0)).
  rewrite Hmany. reflexivity.
Qed.

(** X15: a cart entry is emitted by its product and its customization only: the
    user, a hidden field, is not a key of the output, and two entries that
    differ in the user alone have the same output. *)
Theorem cart_representation_hides_user :
  (forall c : Cart.t,
     CartSerializer.to_representation c
     = Return [("product", Drf.VInt (Z.of_nat (Cart.product c)));
               ("customization", Drf.VStr (Cart.customization c))])
  /\ (forall c1 c2 : Cart.t,
        Cart.product c1 = Cart.product c2 ->
        Cart.customization c1 = Cart.customization c2 ->
        CartSerializer.to_representation c1 = CartSerializer.to_representation c2).
Proof.
  assert (Heq : forall c : Cart.t,
             CartSerializer.to_representation c
             = Return [("product", Drf.VInt (Z.of_nat (Cart.product c)));
                       ("customization", Drf.VStr (Cart.customization c))])
    by reflexivity.
  split; [exact Heq|].
  intros c1 c2 Hp Hc. now rewrite !Heq, Hp, Hc.
Qed.

Lemma cart_representation_hides_user_witness :
  CartSerializer.to_representation
    {| Cart.product := 1; Cart.user := 7; Cart.customization := "small" |}
  = CartSerializer.to_representation
      {| Cart.product := 1; Cart.user := 8; Cart.customization := "small" |}.
Proof.
  apply (proj2 cart_representation_hides_user); reflexivity.
Defined.

(** ** The properties above on the example data *)

Lemma order_validate_iff_witness :
  fst (OrderListSerializer.validate
         {| OrderListSerializer.attrs_location := "take away";
            OrderListSerializer.attrs_user := Some 2%nat |} Examples.db_no_cart)
  = Return {| OrderListSerializer.attrs_location := "take away";
              OrderListSerializer.attrs_user := Some 2%nat |}.
Proof.
  apply (proj1 (proj2 (order_validate_iff Examples.db_no_cart
           {| OrderListSerializer.attrs_location := "take away";
              OrderListSerializer.attrs_user := Some 2%nat |}))).
  eexists. split; [left; reflexivity|reflexivity].
Defined.

Lemma get_status_none_iff_witness :
  OrderListSerializer.get_status Examples.STATUS_example (fun _ => "Ready")
    (OrderListSerializer.RawStatusPayload {[ "location" := "shop" ]})
  = Return None.
Proof.
  apply (proj2 (get_status_none_iff Examples.STATUS_example (fun _ => "Ready")
                  {[ "location" := "shop" ]})).
  vm_compute. reflexivity.
Defined.
